(** * worldpay-lib-node: the client of lib/index.js, embedded and checked

    The library is a thin JavaScript client: it validates inputs, builds one
    HTTP request per operation and interprets the reply.  The embedding keeps
    the JavaScript data as it is (dynamically typed values, doubles, objects
    as property lists), models a thrown exception as an abrupt completion, and
    records every call of the [request] transport in a log, so that "no
    request was sent" is a statement about that log. *)

From Stdlib Require Import String Ascii List ZArith Bool Lia.
From Stdlib Require Import DecimalString.
From Stdlib Require Import PrimFloat FloatOps SpecFloat Uint63.
Import ListNotations.
Local Open Scope string_scope.
Local Open Scope list_scope.

(** ** JavaScript values *)

Module Js.

(** Plain objects, with [Object.prototype] as prototype, hold own data
    properties.  Functions are not values here (callbacks are modelled
    apart), so no property of an object can be called.  The library reads
    fixed keys, none of which [Object.prototype] has; the one key a caller
    chooses is that of the catalog, for which the inherited members are
    taken into account where it is read ([catalog_entry]). *)
#[warnings="-register-all"]
Inductive value : Type :=
| VUndefined
| VNull
| VBool (b : bool)
| VNum (x : float)
| VStr (s : string)
| VObj (props : list (string * value)).

(** What a [throw] carries: the engine's TypeError, or a thrown value. *)
Inductive thrown : Type :=
| TypeError
| Thrown (e : value).

Inductive completion (A : Type) : Type :=
| Normal (a : A)
| Throw (t : thrown).
Arguments Normal {A} a.
Arguments Throw {A} t.

Definition bindC {A B} (c : completion A) (k : A -> completion B) : completion B :=
  match c with
  | Normal a => k a
  | Throw t => Throw t
  end.

Notation "'let!' x ':=' c 'in' k" := (bindC c (fun x => k))
  (at level 10, x name, c at level 100, k at level 200).

(** The names every plain object answers to without having them: the
    members of [Object.prototype]. *)
Definition object_prototype_members : list string :=
  [ "constructor"; "toString"; "toLocaleString"; "valueOf"; "hasOwnProperty";
    "isPrototypeOf"; "propertyIsEnumerable"; "__proto__";
    "__defineGetter__"; "__defineSetter__";
    "__lookupGetter__"; "__lookupSetter__" ].

Definition inherited (k : string) : bool :=
  existsb (String.eqb k) object_prototype_members.

(** The conversions between strings and numbers belong to the engine, not to
    the library; they are taken as given.  So is the text a member of
    [Object.prototype] (a function such as [constructor], or the prototype
    itself under [__proto__]) turns into when it is concatenated. *)
Record Runtime : Type := {
  StringToNumber : string -> float;    (* ToNumber on a string *)
  parseFloatString : string -> float;  (* the global parseFloat on a string *)
  NumberToString : float -> string;    (* ToString on a number *)
  member_text : string -> string       (* ToString on Object.prototype[name] *)
}.

(** [!!v] *)
Definition truthy (v : value) : bool :=
  match v with
  | VUndefined | VNull => false
  | VBool b => b
  | VNum x => negb (PrimFloat.eqb x 0%float) && negb (PrimFloat.is_nan x)
  | VStr s => negb (String.eqb s "")
  | VObj _ => true
  end.

(** [a || b] *)
Definition js_or (a b : value) : value := if truthy a then a else b.

Definition typeof (v : value) : string :=
  match v with
  | VUndefined => "undefined"
  | VNull => "object"
  | VBool _ => "boolean"
  | VNum _ => "number"
  | VStr _ => "string"
  | VObj _ => "object"
  end.

(** [a === b] where one side is a primitive, which is every use in the
    library (['T'], [200], ['POST'], [null], [false], [true], ['string']).
    Two objects are compared by identity in JavaScript; an object is never
    identical to a primitive. *)
Definition strict_eq (a b : value) : bool :=
  match a, b with
  | VUndefined, VUndefined => true
  | VNull, VNull => true
  | VBool x, VBool y => Bool.eqb x y
  | VNum x, VNum y => PrimFloat.eqb x y
  | VStr x, VStr y => String.eqb x y
  | _, _ => false
  end.

Fixpoint lookup (props : list (string * value)) (k : string) : option value :=
  match props with
  | [] => None
  | (k', v) :: rest => if String.eqb k' k then Some v else lookup rest k
  end.

Fixpoint set (k : string) (v : value) (props : list (string * value))
  : list (string * value) :=
  match props with
  | [] => [(k, v)]
  | (k', v') :: rest =>
      if String.eqb k' k then (k, v) :: rest else (k', v') :: set k v rest
  end.

(** [s[i]] for the key of an index, counted from [i]. *)
Fixpoint char_at_key (s : string) (i : nat) (k : string) : value :=
  match s with
  | EmptyString => VUndefined
  | String c rest =>
      if String.eqb (NilZero.string_of_uint (Nat.to_uint i)) k
      then VStr (String c EmptyString)
      else char_at_key rest (S i) k
  end.

Definition number_of_nat (n : nat) : float :=
  PrimFloat.of_uint63 (Uint63.of_Z (Z.of_nat n)).

(** [v[k]] where [v] is known not to be [null] or [undefined]. *)
Definition get_own (v : value) (k : string) : value :=
  match v with
  | VObj props => match lookup props k with Some x => x | None => VUndefined end
  | VStr s =>
      if String.eqb k "length" then VNum (number_of_nat (String.length s))
      else char_at_key s 0 k
  | _ => VUndefined
  end.

(** [v.k] / [v[k]]: reading a property of [null] or [undefined] throws. *)
Definition get_prop (v : value) (k : string) : completion value :=
  match v with
  | VUndefined | VNull => Throw TypeError
  | _ => Normal (get_own v k)
  end.

(** [Number.isInteger] on a double: finite, with no fractional part. *)
Definition isInteger (x : float) : bool :=
  match Prim2SF x with
  | S754_zero _ => true
  | S754_finite _ m e => (0 <=? e)%Z || (Z.pos m mod 2 ^ (- e) =? 0)%Z
  | _ => false
  end.

Section Conversions.
Variable rt : Runtime.

(** ToPrimitive.  A value of this model is never a function, so an object
    with an own [toString] has one that cannot be called; its [valueOf],
    own or inherited, gives no primitive either, and the conversion throws
    a TypeError.  Any other object inherits [Object.prototype.toString]. *)
Definition to_primitive (v : value) : completion value :=
  match v with
  | VObj props =>
      match lookup props "toString" with
      | Some _ => Throw TypeError
      | None => Normal (VStr "[object Object]")
      end
  | _ => Normal v
  end.

(** Whether ToPrimitive succeeds. *)
Definition convertible (v : value) : bool :=
  match to_primitive v with
  | Normal _ => true
  | Throw _ => false
  end.

(** The string and the number a value converts to, when ToPrimitive
    succeeds on it. *)
Definition string_of (v : value) : string :=
  match v with
  | VUndefined => "undefined"
  | VNull => "null"
  | VBool true => "true"
  | VBool false => "false"
  | VNum x => NumberToString rt x
  | VStr s => s
  | VObj _ => "[object Object]"
  end.

Definition number_of (v : value) : float :=
  match v with
  | VUndefined => nan
  | VNull => 0%float
  | VBool true => 1%float
  | VBool false => 0%float
  | VNum x => x
  | VStr s => StringToNumber rt s
  | VObj _ => nan    (* ToPrimitive gives "[object Object]" *)
  end.

(** [a + b] once both operands have gone through ToPrimitive:
    concatenation as soon as one of them is a string (an object has become
    "[object Object]"), else a sum. *)
Definition plus (a b : value) : value :=
  match a, b with
  | VStr _, _ | VObj _, _ | _, VStr _ | _, VObj _ =>
      VStr (string_of a ++ string_of b)
  | _, _ => VNum (PrimFloat.add (number_of a) (number_of b))
  end.

(** ToString and ToNumber. *)
Definition to_string (v : value) : completion string :=
  let! p := to_primitive v in Normal (string_of p).

Definition to_number (v : value) : completion float :=
  let! p := to_primitive v in Normal (number_of p).

(** [a + b]. *)
Definition js_add (a b : value) : completion value :=
  let! pa := to_primitive a in
  let! pb := to_primitive b in
  Normal (plus pa pb).

(** [a <= b] and [a > b] with a number on the right, as in the library
    ([<= 0], [> 0]): the comparison is numeric and false on NaN. *)
Definition js_le (a b : value) : completion bool :=
  let! x := to_number a in
  let! y := to_number b in
  Normal (PrimFloat.leb x y).

Definition js_gt (a b : value) : completion bool :=
  let! x := to_number a in
  let! y := to_number b in
  Normal (PrimFloat.ltb y x).

(** The global [parseFloat]: its argument is converted to a string and the
    longest numeric prefix is read.  On a number the two steps give the
    number back (ToString prints a double so that it reads back; [-0]
    prints as "0"); "undefined", "null", "true", "false" and
    "[object Object]" have no numeric prefix. *)
Definition parseFloat (v : value) : completion float :=
  let! p := to_primitive v in
  Normal match v with
         | VNum x => if PrimFloat.eqb x 0%float then 0%float else x
         | VStr s => parseFloatString rt s
         | _ => nan
         end.

End Conversions.

End Js.
Import Js.

(** ** The error catalog and the error value *)

(** Modelled from the spec: the catalog of error templates,
    [WorldpayException.errors] of lib/worldpayException.js, which is not
    among the sources.  The spec (sections 3 and 7) fixes that it is a table
    of message templates keyed by short symbolic names, with per-field
    sub-templates for the order fields and the refund order code; the keys
    are the ones lib/index.js reads.  The texts are left open. *)
Record catalog : Type := {
  t_key : string;                  (* MissingCredential *)
  t_ip : string;                   (* InvalidInput *)
  t_ssl : string;                  (* SslDisabledForLiveCredential *)
  t_uanv : string;                 (* UnexpectedApiResponse *)
  t_apierror : string;             (* ApiError *)
  t_json : string;                 (* detail of UnexpectedApiResponse *)
  t_notificationPost : string;     (* InvalidMethod *)
  t_notificationUnknown : string;  (* UnknownNotification *)
  t_refund_ordercode : string;
  t_token : string;
  t_orderDescription : string;
  t_amount : string;
  t_currencyCode : string;
  t_name : string;
  t_billingAddress : string
}.

(** The catalog as the object the code indexes. *)
Definition errors (cat : catalog) : value :=
  VObj [ ("key", VStr (t_key cat));
         ("ip", VStr (t_ip cat));
         ("ssl", VStr (t_ssl cat));
         ("uanv", VStr (t_uanv cat));
         ("apierror", VStr (t_apierror cat));
         ("json", VStr (t_json cat));
         ("notificationPost", VStr (t_notificationPost cat));
         ("notificationUnknown", VStr (t_notificationUnknown cat));
         ("refund", VObj [ ("ordercode", VStr (t_refund_ordercode cat)) ]);
         ("orderInput",
          VObj [ ("token", VStr (t_token cat));
                 ("orderDescription", VStr (t_orderDescription cat));
                 ("amount", VStr (t_amount cat));
                 ("currencyCode", VStr (t_currencyCode cat));
                 ("name", VStr (t_name cat));
                 ("billingAddress", VStr (t_billingAddress cat)) ]) ].

(** Modelled from the spec: the constructor of the error value (also in
    lib/worldpayException.js).  Section 3: an error carries [message], [code],
    [httpStatusCode], [description] and [customCode], verbatim. *)
Definition WorldpayException
           (message code httpStatusCode description customCode : value) : value :=
  VObj [ ("message", message);
         ("code", code);
         ("httpStatusCode", httpStatusCode);
         ("description", description);
         ("customCode", customCode) ].

Definition error_message (e : value) : value := get_own e "message".
Definition error_code (e : value) : value := get_own e "code".

(** ** The transport and the effects of an operation *)

(** The options object handed to [request]. *)
Record request_options : Type := {
  url : value;
  method : value;
  json : value;
  timeout_opt : value;
  authorization : value;
  strictSSL : bool
}.

(** What the transport hands to its callback: [(err, response, body)]. *)
Record reply : Type := {
  r_err : value;
  r_response : value;
  r_body : value
}.

(** An operation runs against the log of the requests sent so far; it ends
    normally or by a throw, and leaves the new log. *)
Definition M (A : Type) : Type :=
  list request_options -> completion A * list request_options.

Definition ret {A} (a : A) : M A := fun log => (Normal a, log).

Definition bind {A B} (m : M A) (k : A -> M B) : M B :=
  fun log =>
    match m log with
    | (Normal a, log') => k a log'
    | (Throw t, log') => (Throw t, log')
    end.

Definition lift {A} (c : completion A) : M A := fun log => (c, log).

Notation "'do' x '<-' m ';' k" := (bind m (fun x => k))
  (at level 10, x name, m at level 100, k at level 200).

(** A node-style callback [function (err, data)]; a call with one argument
    leaves [data] undefined. *)
Definition node_cb (R : Type) : Type := value -> value -> M R.

(** [a && b] where [b] has effects: [b] is not evaluated when [a] is false. *)
Definition and_then (a : bool) (b : M bool) : M bool :=
  if a then b else ret false.

(** The callback a caller passes when all it does is look at the outcome. *)
Inductive cb_call : Type :=
| Called (err data : value).

Definition observe : node_cb cb_call := fun err data => ret (Called err data).

(** ** lodash's merge *)

(** [_.merge(object, source)] of lodash, for plain objects: every own
    property of [source] is assigned onto [object], recursing where the source
    value is itself an object (a destination value that is not an object is
    replaced by a copy), and skipping a source value that is [undefined] when
    the key is already there.  A source that is not an object contributes no
    property the library reads. *)
Fixpoint merge (object : list (string * value)) (source : value) {struct source}
  : list (string * value) :=
  match source with
  | VObj sprops =>
      (fix assign (obj : list (string * value)) (ps : list (string * value))
           {struct ps} : list (string * value) :=
         match ps with
         | [] => obj
         | (k, srcValue) :: ps' =>
             let obj' :=
               match srcValue with
               | VObj _ =>
                   let objValue :=
                     match lookup obj k with
                     | Some (VObj o) => o
                     | _ => []
                     end in
                   set k (VObj (merge objValue srcValue)) obj
               | VUndefined =>
                   match lookup obj k with
                   | Some _ => obj
                   | None => set k VUndefined obj
                   end
               | _ => set k srcValue obj
               end in
             assign obj' ps'
         end) object sprops
  | _ => object
  end.

(** ** The client: lib/index.js *)

(** The fields the constructor sets on [this].  [disableSsl] only ever holds
    [false] (line 30) or the result of a [!] (line 39): a boolean. *)
Record client : Type := {
  serviceKey : value;
  timeout : value;
  disableSsl : bool;
  endpoint : string
}.

(** An argument slot that the code calls as a function: a caller may have put
    a function there, or anything else ([undefined] when the argument was not
    passed), and calling what is not a function throws. *)
Inductive argument (R : Type) : Type :=
| IsFunction (f : node_cb R)
| NotFunction (v : value).
Arguments IsFunction {R} f.
Arguments NotFunction {R} v.

Definition call {R} (f : argument R) (err data : value) : M R :=
  match f with
  | IsFunction g => g err data
  | NotFunction _ => lift (Throw TypeError)
  end.

Section Library.
Variable rt : Runtime.
Variable cat : catalog.
(** The remote service seen through [request]: the reply to each request. *)
Variable net : request_options -> reply.

Local Abbreviation U := VUndefined.

(** [function isFloat(number)] (lines 11-13). *)
Definition isFloat (number : value) : completion bool :=
  let! x := parseFloat rt number in Normal (isInteger x).

(** [WorldpayException.errors[error]] as line 288 uses it, as an operand of
    [+]: an own entry of the catalog; else, for the name of a member of
    [Object.prototype], which the catalog inherits, the text that member
    concatenates as; else [undefined]. *)
Definition catalog_entry (error : string) : value :=
  match errors cat with
  | VObj props =>
      match lookup props error with
      | Some x => x
      | None =>
          if inherited error then VStr (member_text rt error) else VUndefined
      end
  | _ => VUndefined
  end.

(** The error [onError] returns when its concatenations succeed. *)
Definition built_error (error : string)
           (message code httpStatusCode description customCode : value) : value :=
  let message :=
    if truthy message then plus rt (VStr " - ") message else message in
  WorldpayException (plus rt (catalog_entry error) message)
                    code httpStatusCode description customCode.

(** [Worldpay.onError] (lines 283-289); [error] is a string, as at every
    call in the library.  Line 285 throws when the message is an object that
    does not convert to a string. *)
Definition onError (error : string)
           (message code httpStatusCode description customCode : value)
  : completion value :=
  let! message :=
    (if truthy message then js_add rt (VStr " - ") message else Normal message) in
  let! text := js_add rt (catalog_entry error) message in
  Normal (WorldpayException text code httpStatusCode description customCode).

(** [function Worldpay(serviceKey, timeout)] (lines 20-32), called with
    [new]: the client, or the throw of line 22. *)
Definition Worldpay (serviceKey timeout : value) : completion client :=
  if negb (truthy serviceKey)
  then let! e := onError "key" U U U U U in Throw (Thrown e)
  else Normal {| serviceKey := serviceKey;
                 timeout := js_or timeout (VNum 10%float);
                 disableSsl := false;
                 endpoint := "https://api.worldpay.com/v1/" |}.

(** [disableSSLCheck] (lines 38-40). *)
Definition disableSSLCheck (self : client) (disable : value) : client :=
  {| serviceKey := serviceKey self;
     timeout := timeout self;
     disableSsl := negb (truthy disable);
     endpoint := endpoint self |}.

(** [setTimeout] (lines 46-49). *)
Definition setTimeout (self : client) (t : value) : client :=
  {| serviceKey := serviceKey self;
     timeout := js_or t (VNum 3%float);
     disableSsl := disableSsl self;
     endpoint := endpoint self |}.

Definition orderInput (field : string) : value :=
  get_own (get_own (errors cat) "orderInput") field.

(** The test of line 70; [||] evaluates its right operand only when the
    left one is false. *)
Definition amount_check (amount : value) : completion bool :=
  if negb (truthy amount) then Normal true
  else
    let! not_positive := js_le rt amount (VNum 0%float) in
    if not_positive then Normal true else isFloat amount.

(** The local array [errors] of [checkOrderInput] when line 86 is reached
    (lines 62-84), for an [order] that is not [null] or [undefined]. *)
Definition pushed_errors (order : value) : completion (list value) :=
  let! amount_fails := amount_check (get_own order "amount") in
  Normal
    ((if negb (truthy (get_own order "token")) then [orderInput "token"] else [])
     ++ (if negb (truthy (get_own order "orderDescription"))
         then [orderInput "orderDescription"] else [])
     ++ (if amount_fails then [orderInput "amount"] else [])
     ++ (if negb (truthy (get_own order "currencyCode"))
         then [orderInput "currencyCode"] else [])
     ++ (if negb (truthy (get_own order "name")) then [orderInput "name"] else [])
     ++ (if negb (truthy (get_own order "billingAddress"))
         then [orderInput "billingAddress"] else [])).

(** [checkOrderInput] (lines 56-91).  Line 86 tests the [length] of the
    catalog, not of the local array; line 87 would call [join] on the
    catalog, which is an object without such a method. *)
Definition checkOrderInput (order : value) : completion value :=
  if negb (truthy order) then onError "ip" U U U U U
  else
    let! errors_local := pushed_errors order in
    let! catalog_has_length :=
      js_gt rt (get_own (errors cat) "length") (VNum 0%float) in
    if catalog_has_length then Throw TypeError else Normal (VBool false).

(** Line 106. *)
Definition ssl_gate (self : client) : completion bool :=
  if disableSsl self
  then let! k0 := get_prop (serviceKey self) "0" in
       Normal (negb (strict_eq k0 (VStr "T")))
  else Normal false.

(** [request(opts, callback)]: the request is sent, and the transport calls
    back with the reply. *)
Definition request {R} (opts : request_options)
           (k : value -> value -> value -> M R) : M R :=
  fun log =>
    let r := net opts in
    k (r_err r) (r_response r) (r_body r) (log ++ [opts]).

Definition status_is_200 (response : value) : M bool :=
  do sc <- lift (get_prop response "statusCode");
  ret (strict_eq sc (VNum 200%float)).

Definition status_not_200 (response : value) : M bool :=
  do sc <- lift (get_prop response "statusCode");
  ret (negb (strict_eq sc (VNum 200%float))).

(** [cb(Worldpay.onError(...))]: the error is built, then handed over. *)
Definition fail_with {R} (cb : node_cb R) (e : completion value) : M R :=
  do err <- lift e; cb err U.

(** The inner [callback] of [sendRequest] (lines 121-156). *)
Definition callback {R} (options : value) (cb : node_cb R)
           (err response body : value) : M R :=
  let expectResponse := truthy (get_own options "expectResponse") in
  if truthy err then cb err U
  else if expectResponse
          && (strict_eq response VNull || strict_eq response (VBool false))
  then fail_with cb (onError "uanv" (get_own (errors cat) "json")
                             (VNum 503%float) U U U)
  else
    do c131 <- and_then expectResponse (status_not_200 response);
    if c131
    then fail_with cb (onError "uanv" (get_own (errors cat) "json")
                               (VNum 503%float) U U U)
    else
      do c136 <- and_then (negb expectResponse) (status_not_200 response);
      if c136
      then do sc <- lift (get_prop response "statusCode");
           fail_with cb (onError "apierror" response sc U U U)
      else
        do c140 <- status_not_200 response;
        if c140
        then do d1 <- lift (get_prop response "description");
             do s1 <- lift (get_prop response "statusCode");
             do s2 <- lift (get_prop response "statusCode");
             do d2 <- lift (get_prop response "description");
             do cc <- lift (get_prop response "customCode");
             fail_with cb (onError "apierror" d1 s1 s2 d2 cc)
        else
          do c151 <- and_then (negb expectResponse) (status_is_200 response);
          cb VNull (if c151 then VBool true else body).

(** [sendRequest] (lines 103-157).  The options of [request] are evaluated,
    the URL first, before [request] is called. *)
Definition sendRequest {R} (self : client) (options : value) (cb : node_cb R)
  : M R :=
  let options := js_or options (VObj []) in
  do gate <- lift (ssl_gate self);
  if gate then fail_with cb (onError "ssl" U U U U U)
  else
    do url <- lift (js_add rt (VStr (endpoint self)) (get_own options "action"));
    request
      {| url := url;
         method := js_or (get_own options "method") (VStr "POST");
         json := js_or (get_own options "json") (VBool true);
         timeout_opt := timeout self;
         authorization := serviceKey self;
         strictSSL := negb (disableSsl self) |}
      (callback options cb).

(** The object literal of lines 174-178. *)
Definition defaults : list (string * value) :=
  [ ("orderType", VStr "ECOM");
    ("customerIdentifiers", VNull);
    ("billingAddress", VNull) ].

(** The wire payload of lines 182-192, read off the merged order. *)
Definition order_json (order : value) : value :=
  VObj [ ("token", get_own order "token");
         ("orderDescription", get_own order "orderDescription");
         ("amount", get_own order "amount");
         ("currencyCode", get_own order "currencyCode");
         ("name", get_own order "name");
         ("orderType", get_own order "orderType");
         ("billingAddress", get_own order "billingAddress");
         ("customerOrderCode", get_own order "customerOrderCode");
         ("customerIdentifiers", get_own order "customerIdentifiers") ].

(** [createOrder] (lines 166-207).  The options carry [expectedResult], a key
    [sendRequest] never reads. *)
Definition createOrder {R} (self : client) (order : value) (cb : node_cb R)
  : M R :=
  let order := js_or order (VObj []) in
  do orderValidationError <- lift (checkOrderInput order);
  if truthy orderValidationError then cb orderValidationError U
  else
    let order := VObj (merge defaults order) in
    let opts := VObj [ ("action", VStr "orders");
                       ("json", order_json order);
                       ("expectedResult", VBool true) ] in
    sendRequest self opts
      (fun err response =>
         if truthy err then cb err U
         else
           do orderCode <- lift (get_prop response "orderCode");
           if negb (truthy orderCode)
           then fail_with cb (onError "apierror" U U U U U)
           else cb VNull response).

(** [refundOrder] (lines 214-220). *)
Definition refundOrder {R} (self : client) (orderCode : value) (cb : node_cb R)
  : M R :=
  if negb (truthy orderCode) || negb (String.eqb (typeof orderCode) "string")
  then fail_with cb (onError "ip" (get_own (get_own (errors cat) "refund")
                                           "ordercode") U U U U)
  else
    do prefix <- lift (js_add rt (VStr "orders/") orderCode);
    do action <- lift (js_add rt prefix (VStr "/refund"));
    sendRequest self (VObj [ ("action", action) ]) cb.

(** [getStoredCardDetails] (lines 228-251). *)
Definition getStoredCardDetails {R} (self : client) (token : value)
           (cb : node_cb R) : M R :=
  if negb (truthy token) || negb (String.eqb (typeof token) "string")
  then fail_with cb (onError "ip" (orderInput "token") U U U U)
  else
    do action <- lift (js_add rt (VStr "tokens/") token);
    let opts := VObj [ ("action", action);
                       ("json", VBool false);
                       ("expectedResult", VBool true);
                       ("method", VStr "GET") ] in
    sendRequest self opts
      (fun err response =>
         if truthy err then cb err U
         else
           do paymentMethod <- lift (get_prop response "paymentMethod");
           if negb (truthy paymentMethod)
           then fail_with cb (onError "apierror" U U U U U)
           else cb VNull paymentMethod).

(** [Worldpay.processWebhook] (lines 260-272): the handler it returns, applied
    to a request [req].  The callback is the second parameter; [token] is
    never read.  The callee is looked at when the call is made, after the
    error has been built. *)
Definition processWebhook {R} (token cb : argument R) (req : value) : M R :=
  do m <- lift (get_prop req "method");
  if negb (strict_eq m (VStr "POST"))
  then do e <- lift (onError "notificationPost" U U U U U); call cb e U
  else
    do body <- lift (get_prop req "body");
    if negb (truthy body)
    then do e <- lift (onError "notificationUnknown" U U U U U); call cb e U
    else
      do body' <- lift (get_prop req "body");
      call cb VNull body'.

End Library.

(** Running an operation from an empty log with the observing callback. *)
Definition run {A} (m : M A) : completion A * list request_options := m [].

(** ** Data for the worked examples *)

(** An engine for the examples: none of them converts between a string and a
    number, so its three conversions are never consulted.  A member of
    [Object.prototype] prints as a native function, the prototype itself as
    an object. *)
Definition inert_runtime : Runtime :=
  {| StringToNumber := fun _ => nan;
     parseFloatString := fun _ => nan;
     NumberToString := fun _ => "NaN";
     member_text := fun name =>
       if String.eqb name "__proto__" then "[object Object]"
       else if String.eqb name "constructor"
            then "function Object() { [native code] }"
            else ("function " ++ name ++ "() { [native code] }")%string |}.

(** A catalog with texts chosen for the examples. *)
Definition sample_catalog : catalog :=
  {| t_key := "Please enter your service key";
     t_ip := "Invalid parameters";
     t_ssl := "SSL check failed";
     t_uanv := "Worldpay is currently unavailable";
     t_apierror := "API Error";
     t_json := "JSON could not be decoded";
     t_notificationPost := "Notification must be a POST";
     t_notificationUnknown := "Notification is empty";
     t_refund_ordercode := "No order code entered";
     t_token := "No token found";
     t_orderDescription := "No order description found";
     t_amount := "No amount found, or it is not a whole number";
     t_currencyCode := "No currency code found";
     t_name := "No name found";
     t_billingAddress := "No billing address found" |}.

(** A service that answers every request with status 200 and [body]. *)
Definition answers_200 (body : value) : request_options -> reply :=
  fun _ => {| r_err := VNull;
              r_response := VObj [ ("statusCode", VNum 200%float) ];
              r_body := body |}.

(** An order with the six required fields, for a given [amount]. *)
Definition order_with_amount (amount : value) : value :=
  VObj [ ("token", VStr "tok_1");
         ("orderDescription", VStr "One book");
         ("amount", amount);
         ("currencyCode", VStr "GBP");
         ("name", VStr "A Customer");
         ("billingAddress", VObj [ ("city", VStr "London") ]) ].

(** [new Worldpay('L_live_key')] and [new Worldpay('T_test_key')]. *)
Definition live_client : client :=
  {| serviceKey := VStr "L_live_key";
     timeout := VNum 10%float;
     disableSsl := false;
     endpoint := "https://api.worldpay.com/v1/" |}.

Definition test_client : client :=
  {| serviceKey := VStr "T_test_key";
     timeout := VNum 10%float;
     disableSsl := false;
     endpoint := "https://api.worldpay.com/v1/" |}.

(** The request each operation of the examples sends for [self]. *)
Definition sent_request (self : client) (path meth : string) (payload : value)
  : request_options :=
  {| url := VStr (endpoint self ++ path);
     method := VStr meth;
     json := payload;
     timeout_opt := timeout self;
     authorization := serviceKey self;
     strictSSL := negb (disableSsl self) |}.

(** The requests the three operations build (lines 110-119 with the options
    of lines 193, 219 and 233-238). *)
Definition createOrder_request (self : client) (order : value) : request_options :=
  sent_request self "orders" "POST"
               (order_json (VObj (merge defaults (js_or order (VObj []))))).

Definition refundOrder_request (self : client) (orderCode : string) : request_options :=
  sent_request self ("orders/" ++ orderCode ++ "/refund") "POST" (VBool true).

Definition getStoredCardDetails_request (self : client) (token : string)
  : request_options :=
  sent_request self ("tokens/" ++ token) "GET" (VBool true).

(** Every way [sendRequest] can end for options without [expectResponse]. *)
Definition outcome_not_expecting (rt : Runtime) (cat : catalog)
           (net : request_options -> reply) {R}
           (self : client) (req : request_options)
           (k : node_cb R) (log : list request_options)
  : completion R * list request_options :=
  let U := VUndefined in
  match ssl_gate self with
  | Throw t => (Throw t, log)
  | Normal true => k (built_error rt cat "ssl" U U U U U) U log
  | Normal false =>
      if truthy (r_err (net req)) then k (r_err (net req)) U (log ++ [req])
      else
        match get_prop (r_response (net req)) "statusCode" with
        | Throw t => (Throw t, log ++ [req])
        | Normal sc =>
            if strict_eq sc (VNum 200%float)
            then k VNull (VBool true) (log ++ [req])
            else if convertible (r_response (net req))
                 then k (built_error rt cat "apierror" (r_response (net req))
                                     sc U U U) U (log ++ [req])
                 else (Throw TypeError, log ++ [req])
        end
  end.

(** The request [sendRequest] builds from its options (lines 110-119), when
    the concatenation of line 111 succeeds. *)
Definition sendRequest_request (rt : Runtime) (self : client) (options : value)
  : request_options :=
  let options := js_or options (VObj []) in
  {| url := plus rt (VStr (endpoint self)) (get_own options "action");
     method := js_or (get_own options "method") (VStr "POST");
     json := js_or (get_own options "json") (VBool true);
     timeout_opt := timeout self;
     authorization := serviceKey self;
     strictSSL := negb (disableSsl self) |}.

(** The [uanv] error of lines 128 and 133. *)
Definition uanv_error (rt : Runtime) (cat : catalog) : value :=
  built_error rt cat "uanv" (VStr (t_json cat)) (VNum 503%float)
              VUndefined VUndefined VUndefined.

(** A callback that sends nothing itself. *)
Definition keeps_log {R} (k : node_cb R) : Prop :=
  forall err data log, snd (k err data log) = log.

(** The keys of the payload of lines 182-192, in order. *)
Definition payload_keys : list string :=
  [ "token"; "orderDescription"; "amount"; "currencyCode"; "name";
    "orderType"; "billingAddress"; "customerOrderCode"; "customerIdentifiers" ].

(** A value [_.merge] assigns as it is: neither an object, which it merges
    into, nor [undefined], which it skips. *)
Definition is_scalar (v : value) : bool :=
  match v with
  | VObj _ | VUndefined => false
  | _ => true
  end.

(** What [merge] does with one property of the source. *)
Definition merge_step (obj : list (string * value)) (k : string)
           (srcValue : value) : list (string * value) :=
  match srcValue with
  | VObj _ =>
      let objValue :=
        match lookup obj k with
        | Some (VObj o) => o
        | _ => []
        end in
      set k (VObj (merge objValue srcValue)) obj
  | VUndefined =>
      match lookup obj k with
      | Some _ => obj
      | None => set k VUndefined obj
      end
  | _ => set k srcValue obj
  end.

(** More data for the examples: a service with one fixed reply, the two
    clients with the flag [disableSsl] on, and the properties of an order. *)
Definition answers (r : reply) : request_options -> reply := fun _ => r.

Definition flagged_live_client : client :=
  {| serviceKey := VStr "L_live_key";
     timeout := VNum 10%float;
     disableSsl := true;
     endpoint := "https://api.worldpay.com/v1/" |}.

Definition flagged_test_client : client :=
  {| serviceKey := VStr "T_test_key";
     timeout := VNum 10%float;
     disableSsl := true;
     endpoint := "https://api.worldpay.com/v1/" |}.

Definition sample_order_props : list (string * value) :=
  [ ("token", VStr "tok_1");
    ("orderDescription", VStr "One book");
    ("amount", VNum 100%float);
    ("currencyCode", VStr "GBP");
    ("name", VStr "A Customer");
    ("comment", VStr "not a payload key") ].

(** ** Properties *)

Section Facts.
Variable rt : Runtime.
Variable cat : catalog.
Variable net : request_options -> reply.

Local Abbreviation U := VUndefined.

(** *** Conversions *)

Lemma falsy_convertible (v : value) : truthy v = false -> convertible v = true.
Proof. destruct v; simpl; try reflexivity. discriminate. Qed.

Lemma not_convertible_truthy (v : value) :
  convertible v = false -> truthy v = true.
Proof. destruct v; simpl; try discriminate. reflexivity. Qed.

Lemma to_primitive_throws (v : value) :
  convertible v = false -> to_primitive v = Throw TypeError.
Proof.
  unfold convertible. destruct v; simpl; try discriminate.
  destruct (lookup props "toString"); [reflexivity | discriminate].
Qed.

(** [a + b] is [plus] when both operands convert, and a TypeError when one
    does not. *)
Lemma js_add_plus (a b : value) :
  convertible a = true -> convertible b = true ->
  js_add rt a b = Normal (plus rt a b).
Proof.
  unfold convertible, js_add.
  destruct a; destruct b; simpl;
    repeat match goal with
           | |- context [lookup ?p "toString"] => destruct (lookup p "toString")
           end;
    try discriminate; try reflexivity;
    match goal with b : bool |- _ => destruct b; reflexivity end.
Qed.

Lemma js_add_throws (a b : value) :
  convertible a = false \/ convertible b = false ->
  js_add rt a b = Throw TypeError.
Proof.
  intros [H | H]; unfold js_add.
  - rewrite (to_primitive_throws a H). reflexivity.
  - rewrite (to_primitive_throws b H).
    destruct a; simpl; try reflexivity.
    destruct (lookup props "toString"); reflexivity.
Qed.

(** Every entry of the catalog converts: a text, one of the two tables of
    texts, an inherited member, or [undefined]. *)
Lemma catalog_entry_convertible (error : string) :
  convertible (catalog_entry rt cat error) = true.
Proof.
  unfold catalog_entry, errors. cbn [lookup].
  repeat match goal with
         | |- context [String.eqb ?a error] =>
             destruct (String.eqb a error); [reflexivity|]
         end.
  destruct (inherited error); reflexivity.
Qed.

(** An own entry of the catalog is what line 288 reads. *)
Lemma catalog_entry_own (error : string) (x : value) :
  get_own (errors cat) error <> VUndefined ->
  get_own (errors cat) error = x -> catalog_entry rt cat error = x.
Proof.
  unfold catalog_entry, errors, get_own.
  destruct (lookup _ error) as [y|]; [intros _ H; exact H | intros H; contradiction H].
  reflexivity.
Qed.

(** [onError] builds its error unless the message is an object that does not
    convert; then line 285 throws. *)
Lemma onError_built (error : string) (m c h d cc : value) :
  convertible m = true ->
  onError rt cat error m c h d cc = Normal (built_error rt cat error m c h d cc).
Proof.
  intros Hm. unfold onError, built_error.
  destruct (truthy m) eqn:Ht.
  - rewrite (js_add_plus (VStr " - ") m eq_refl Hm). cbn [bindC].
    rewrite (js_add_plus _ _ (catalog_entry_convertible error));
      [reflexivity | destruct m; reflexivity].
  - cbn [bindC].
    rewrite (js_add_plus _ _ (catalog_entry_convertible error) Hm). reflexivity.
Qed.

Lemma onError_throws (error : string) (m c h d cc : value) :
  convertible m = false -> onError rt cat error m c h d cc = Throw TypeError.
Proof.
  intros Hm. unfold onError. rewrite (not_convertible_truthy m Hm).
  rewrite (js_add_throws (VStr " - ") m (or_intror Hm)). reflexivity.
Qed.

Lemma fail_with_onError {R} (k : node_cb R) (error : string)
      (m c h d cc : value) (log : list request_options) :
  fail_with k (onError rt cat error m c h d cc) log
  = if convertible m then k (built_error rt cat error m c h d cc) U log
    else (Throw TypeError, log).
Proof.
  unfold fail_with, bind, lift. destruct (convertible m) eqn:Hm.
  - rewrite (onError_built error m c h d cc Hm). reflexivity.
  - rewrite (onError_throws error m c h d cc Hm). reflexivity.
Qed.

(** *** Validation *)

(** The catalog has no [length], so the test of line 86 is false. *)
Lemma catalog_length_test :
  js_gt rt (get_own (errors cat) "length") (VNum 0%float) = Normal false.
Proof. reflexivity. Qed.

(** The test of line 70 throws exactly on an amount that does not convert. *)
Lemma amount_check_cases (amount : value) :
  if convertible amount
  then exists b, amount_check rt amount = Normal b
  else amount_check rt amount = Throw TypeError.
Proof.
  destruct (convertible amount) eqn:Hc.
  - unfold amount_check, js_le, isFloat, parseFloat, to_number.
    destruct (negb (truthy amount)); [eexists; reflexivity|].
    unfold convertible in Hc.
    destruct (to_primitive amount) as [p|t]; [|discriminate].
    cbn [bindC to_primitive].
    destruct (PrimFloat.leb (number_of rt p) (number_of rt (VNum 0%float)));
      eexists; reflexivity.
  - unfold amount_check. rewrite (not_convertible_truthy amount Hc).
    cbn [negb]. unfold js_le, to_number.
    rewrite (to_primitive_throws amount Hc). reflexivity.
Qed.

(** [checkOrderInput] never reports a field: for an order that is not falsy
    it returns [false], unless the amount is an object that does not
    convert, on which line 70 throws. *)
Lemma checkOrderInput_never_rejects (order : value) :
  truthy order = true ->
  checkOrderInput rt cat order
  = if convertible (get_own order "amount") then Normal (VBool false)
    else Throw TypeError.
Proof.
  intros Hord. unfold checkOrderInput, pushed_errors.
  rewrite Hord. cbn [negb]. cbv iota.
  pose proof (amount_check_cases (get_own order "amount")) as Ha.
  destruct (convertible (get_own order "amount")).
  - destruct Ha as [b ->]. cbn [bindC]. rewrite catalog_length_test. reflexivity.
  - rewrite Ha. reflexivity.
Qed.

(** The names collected for an order without any field are the six, in the
    order of the tests. *)
Lemma pushed_errors_empty_order :
  pushed_errors rt cat (VObj []) =
  Normal
    [ VStr (t_token cat); VStr (t_orderDescription cat); VStr (t_amount cat);
      VStr (t_currencyCode cat); VStr (t_name cat); VStr (t_billingAddress cat) ].
Proof. reflexivity. Qed.

(** [isFloat] answers true on whole numbers. *)
Lemma isFloat_is_isInteger (x : float) :
  PrimFloat.eqb x 0%float = false -> isFloat rt (VNum x) = Normal (isInteger x).
Proof. intros H. unfold isFloat, parseFloat. cbn. rewrite H. reflexivity. Qed.

(** *** The security gate *)

Lemma ssl_gate_flag_off (self : client) :
  disableSsl self = false -> ssl_gate self = Normal false.
Proof. intros H. unfold ssl_gate. rewrite H. reflexivity. Qed.

(** After [disableSSLCheck(true)] the flag is off. *)
Lemma ssl_gate_after_disable_true (self : client) :
  ssl_gate (disableSSLCheck self (VBool true)) = Normal false.
Proof. reflexivity. Qed.

(** After [disableSSLCheck(false)] the gate is decided by the key alone. *)
Lemma ssl_gate_after_disable_false (self : client) (s : string) :
  serviceKey self = VStr s ->
  ssl_gate (disableSSLCheck self (VBool false)) =
  Normal (negb (strict_eq (get_own (VStr s) "0") (VStr "T"))).
Proof. intros H. unfold ssl_gate, disableSSLCheck. simpl. rewrite H. reflexivity. Qed.

(** With the flag on and a key that does not start with ['T'], [sendRequest]
    calls back with the [ssl] error and the log is untouched. *)
Lemma sendRequest_gate_blocks {R} (self : client) (options : value)
      (cb : node_cb R) (log : list request_options) :
  ssl_gate self = Normal true ->
  sendRequest rt cat net self options cb log
  = cb (built_error rt cat "ssl" U U U U U) U log.
Proof. intros H. unfold sendRequest, bind, lift. rewrite H. reflexivity. Qed.

(** With the gate open, [sendRequest] sends exactly one request, unless the
    action does not convert: then line 111 throws and nothing is sent. *)
Lemma sendRequest_gate_open {R} (self : client) (options : value)
      (cb : node_cb R) (log : list request_options) :
  ssl_gate self = Normal false ->
  sendRequest rt cat net self options cb log
  = let options' := js_or options (VObj []) in
    let req := sendRequest_request rt self options in
    if convertible (get_own options' "action")
    then callback rt cat options' cb (r_err (net req)) (r_response (net req))
                  (r_body (net req)) (log ++ [req])
    else (Throw TypeError, log).
Proof.
  intros H. unfold sendRequest, bind, lift. rewrite H. cbv zeta.
  destruct (convertible (get_own (js_or options (VObj [])) "action")) eqn:Hc.
  - rewrite (js_add_plus (VStr (endpoint self)) _ eq_refl Hc). reflexivity.
  - rewrite (js_add_throws (VStr (endpoint self)) _ (or_intror Hc)). reflexivity.
Qed.

(** *** Interpretation of the reply *)

(** A caller whose options lack [expectResponse]: an error is passed on, a
    status other than 200 is an [apierror], and status 200 yields [true],
    whatever the body. *)
Lemma callback_not_expecting {R} (options : value) (cb : node_cb R)
      (err response body : value) (log : list request_options) :
  truthy (get_own options "expectResponse") = false ->
  callback rt cat options cb err response body log
  = if truthy err then cb err U log
    else match get_prop response "statusCode" with
         | Throw t => (Throw t, log)
         | Normal sc =>
             if strict_eq sc (VNum 200%float) then cb VNull (VBool true) log
             else if convertible response
                  then cb (built_error rt cat "apierror" response sc U U U) U log
                  else (Throw TypeError, log)
         end.
Proof.
  intros He. unfold callback. rewrite He.
  destruct (truthy err); [reflexivity|].
  cbn [andb negb and_then].
  unfold bind at 1 2, status_not_200, status_is_200, bind, lift, ret.
  destruct (get_prop response "statusCode") as [sc|t]; [|reflexivity].
  destruct (strict_eq sc (VNum 200%float)); [reflexivity|].
  cbn [negb]. cbv iota. apply fail_with_onError.
Qed.

Lemma append_empty_r (s : string) : (s ++ "")%string = s.
Proof. induction s as [|c s IH]; simpl; [reflexivity | rewrite IH; reflexivity]. Qed.

(** A caller whose options have a truthy [expectResponse]. *)
Lemma callback_expecting {R} (options : value) (cb : node_cb R)
      (err response body : value) (log : list request_options) :
  truthy (get_own options "expectResponse") = true ->
  callback rt cat options cb err response body log
  = if truthy err then cb err U log
    else if strict_eq response VNull || strict_eq response (VBool false)
    then cb (uanv_error rt cat) U log
    else match get_prop response "statusCode" with
         | Throw t => (Throw t, log)
         | Normal sc =>
             if strict_eq sc (VNum 200%float) then cb VNull body log
             else cb (uanv_error rt cat) U log
         end.
Proof.
  intros He. unfold callback. rewrite He.
  assert (Huanv : fail_with cb (onError rt cat "uanv" (get_own (errors cat) "json")
                                        (VNum 503%float) U U U) log
                  = cb (uanv_error rt cat) U log).
  { rewrite fail_with_onError. reflexivity. }
  destruct (truthy err); [reflexivity|].
  cbn [andb].
  destruct (strict_eq response VNull || strict_eq response (VBool false));
    [exact Huanv|].
  cbn [negb and_then].
  unfold bind at 1 2 3 4, status_not_200, status_is_200, bind, lift, ret.
  destruct (get_prop response "statusCode") as [sc|t]; [|reflexivity].
  destruct (strict_eq sc (VNum 200%float)); [reflexivity | exact Huanv].
Qed.

Lemma get_prop_thrown (v : value) (k : string) (t : thrown) :
  get_prop v k = Throw t -> t = TypeError.
Proof. destruct v; simpl; congruence. Qed.

Lemma get_prop_defined (v : value) (k : string) :
  v <> VUndefined -> v <> VNull -> get_prop v k = Normal (get_own v k).
Proof. destruct v; simpl; congruence. Qed.

End Facts.

Section Operations.
Variable rt : Runtime.
Variable cat : catalog.
Variable net : request_options -> reply.

Local Abbreviation U := VUndefined.

Lemma truthy_js_or_object (v : value) : truthy (js_or v (VObj [])) = true.
Proof. unfold js_or. destruct (truthy v) eqn:E; [exact E | reflexivity]. Qed.

Lemma nonempty_string_truthy (s : string) : s <> "" -> truthy (VStr s) = true.
Proof.
  intros H. simpl. apply negb_true_iff. apply String.eqb_neq. exact H.
Qed.

(** The message of the [apierror] error of line 137: the response object is
    concatenated into it. *)
Lemma apierror_message_of_response (props : list (string * value)) (sc : value) :
  error_message (built_error rt cat "apierror" (VObj props) sc U U U)
  = VStr (t_apierror cat ++ " - [object Object]").
Proof. reflexivity. Qed.

Lemma sendRequest_not_expecting {R} (self : client) (options : value)
      (k : node_cb R) (log : list request_options) :
  truthy (get_own (js_or options (VObj [])) "expectResponse") = false ->
  convertible (get_own (js_or options (VObj [])) "action") = true ->
  sendRequest rt cat net self options k log
  = outcome_not_expecting rt cat net self (sendRequest_request rt self options)
                          k log.
Proof.
  intros Hx Hc. unfold outcome_not_expecting.
  destruct (ssl_gate self) as [[|]|t] eqn:Hgate.
  - apply sendRequest_gate_blocks. exact Hgate.
  - rewrite (sendRequest_gate_open rt cat net (R:=R) self _ _ _ Hgate). cbv zeta.
    rewrite Hc. apply callback_not_expecting. exact Hx.
  - unfold sendRequest, bind, lift. rewrite Hgate. reflexivity.
Qed.

(** Case analysis on the outcome of a call that went through
    [outcome_not_expecting]. *)
Ltac outcome_cases :=
  unfold outcome_not_expecting;
  destruct (ssl_gate _) as [[|]|?]; try reflexivity;
  match goal with
  | |- context [truthy (r_err ?r)] =>
      destruct (truthy (r_err r)) eqn:?; try reflexivity
  end;
  match goal with
  | |- context [get_prop ?v "statusCode"] =>
      destruct (get_prop v "statusCode") as [?sc|?]; try reflexivity
  end;
  match goal with
  | |- context [strict_eq ?sc ?n] => destruct (strict_eq sc n); try reflexivity
  end;
  match goal with
  | |- context [convertible ?v] => destruct (convertible v); try reflexivity
  end.

(** *** createOrder *)

(** Every way [createOrder] can end.  An amount that does not convert makes
    line 70 throw.  Otherwise: the options say [expectedResult], a key
    [sendRequest] does not read, so on status 200 the body is replaced by
    [true]; [true.orderCode] is [undefined], and the caller gets the bare
    [apierror] error. *)
Lemma createOrder_outcomes {R} (self : client) (order : value) (cb : node_cb R)
      (log : list request_options) :
  createOrder rt cat net self order cb log
  = if convertible (get_own (js_or order (VObj [])) "amount")
    then outcome_not_expecting rt cat net self (createOrder_request self order)
           (fun err data =>
              if truthy err then cb err U
              else cb (built_error rt cat "apierror" U U U U U) U)
           log
    else (Throw TypeError, log).
Proof.
  unfold createOrder, bind at 1, lift.
  rewrite (checkOrderInput_never_rejects rt cat _ (truthy_js_or_object order)).
  destruct (convertible (get_own (js_or order (VObj [])) "amount"));
    [|reflexivity].
  cbn [truthy]. cbv iota.
  rewrite sendRequest_not_expecting by reflexivity.
  change (sendRequest_request rt self _) with (createOrder_request self order).
  outcome_cases.
Qed.

Lemma createOrder_on_200 {R} (self : client) (order : value) (cb : node_cb R)
      (log : list request_options) (sc : value) :
  convertible (get_own (js_or order (VObj [])) "amount") = true ->
  ssl_gate self = Normal false ->
  truthy (r_err (net (createOrder_request self order))) = false ->
  get_prop (r_response (net (createOrder_request self order))) "statusCode"
  = Normal sc ->
  strict_eq sc (VNum 200%float) = true ->
  createOrder rt cat net self order cb log
  = cb (built_error rt cat "apierror" U U U U U) U
       (log ++ [createOrder_request self order]).
Proof.
  intros Hamount Hgate Herr Hsc H200. rewrite createOrder_outcomes, Hamount.
  unfold outcome_not_expecting. rewrite Hgate, Herr, Hsc, H200. reflexivity.
Qed.

(** No order, no client and no reply make [createOrder] report a success. *)
Lemma createOrder_never_succeeds (self : client) (order err data : value)
      (log : list request_options) :
  run (createOrder rt cat net self order observe)
  = (Normal (Called err data), log) ->
  truthy err = true.
Proof.
  unfold run. rewrite createOrder_outcomes.
  destruct (convertible (get_own _ "amount")); [|discriminate].
  unfold outcome_not_expecting, observe, ret.
  destruct (ssl_gate self) as [[|]|t];
    [intros [= <- _ _]; reflexivity | | discriminate].
  destruct (truthy (r_err _)) eqn:He.
  - intros [= <- _ _]. exact He.
  - destruct (get_prop _ "statusCode") as [sc|t]; [|discriminate].
    destruct (strict_eq sc _); [intros [= <- _ _]; reflexivity|].
    destruct (convertible _); [intros [= <- _ _]; reflexivity | discriminate].
Qed.

(** *** getStoredCardDetails *)

(** The same on the card lookup: [true.paymentMethod] is [undefined]. *)
Lemma getStoredCardDetails_outcomes {R} (self : client) (token : string)
      (cb : node_cb R) (log : list request_options) :
  token <> "" ->
  getStoredCardDetails rt cat net self (VStr token) cb log
  = outcome_not_expecting rt cat net self (getStoredCardDetails_request self token)
      (fun err data =>
         if truthy err then cb err U
         else cb (built_error rt cat "apierror" U U U U U) U)
      log.
Proof.
  intros Hne. unfold getStoredCardDetails.
  rewrite (nonempty_string_truthy token Hne).
  change (String.eqb (typeof (VStr token)) "string") with true.
  cbn [negb orb]. cbv iota.
  unfold bind at 1, lift. cbn [js_add to_primitive bindC].
  rewrite sendRequest_not_expecting by reflexivity.
  change (sendRequest_request rt self _)
    with (getStoredCardDetails_request self token).
  outcome_cases.
Qed.

Lemma getStoredCardDetails_on_200 {R} (self : client) (token : string)
      (cb : node_cb R) (log : list request_options) (sc : value) :
  token <> "" ->
  ssl_gate self = Normal false ->
  truthy (r_err (net (getStoredCardDetails_request self token))) = false ->
  get_prop (r_response (net (getStoredCardDetails_request self token)))
           "statusCode" = Normal sc ->
  strict_eq sc (VNum 200%float) = true ->
  getStoredCardDetails rt cat net self (VStr token) cb log
  = cb (built_error rt cat "apierror" U U U U U) U
       (log ++ [getStoredCardDetails_request self token]).
Proof.
  intros Hne Hgate Herr Hsc H200. rewrite getStoredCardDetails_outcomes by exact Hne.
  unfold outcome_not_expecting. rewrite Hgate, Herr, Hsc, H200. reflexivity.
Qed.

(** An empty or non-string token is refused with nothing sent. *)
Lemma getStoredCardDetails_bad_token {R} (self : client) (token : value)
      (cb : node_cb R) (log : list request_options) :
  truthy token = false \/ typeof token <> "string" ->
  getStoredCardDetails rt cat net self token cb log
  = cb (built_error rt cat "ip" (VStr (t_token cat)) U U U U) U log.
Proof.
  intros Hbad. unfold getStoredCardDetails.
  assert (Hc : negb (truthy token)
               || negb (String.eqb (typeof token) "string") = true).
  { destruct Hbad as [Hf | Hty].
    - rewrite Hf. reflexivity.
    - apply String.eqb_neq in Hty. rewrite Hty. apply orb_true_r. }
  rewrite Hc. rewrite fail_with_onError. reflexivity.
Qed.

(** *** refundOrder *)

Lemma refundOrder_outcomes {R} (self : client) (orderCode : string)
      (cb : node_cb R) (log : list request_options) :
  orderCode <> "" ->
  refundOrder rt cat net self (VStr orderCode) cb log
  = outcome_not_expecting rt cat net self (refundOrder_request self orderCode) cb log.
Proof.
  intros Hne. unfold refundOrder.
  rewrite (nonempty_string_truthy orderCode Hne).
  change (String.eqb (typeof (VStr orderCode)) "string") with true.
  cbn [negb orb]. cbv iota.
  unfold bind at 1 2, lift. cbn [js_add to_primitive bindC plus string_of].
  rewrite sendRequest_not_expecting by reflexivity.
  reflexivity.
Qed.

End Operations.

(** ** The claims, one by one *)

Section Claims.
Variable rt : Runtime.
Variable cat : catalog.

Local Abbreviation U := VUndefined.

(** C1.  Specified: with a credential that does not start with 'T', once TLS
    verification has been disabled through the setter called with [true],
    every operation fails with the [ssl] error before any request.  The code
    at that input: [disableSSLCheck(true)] stores [!true], so the flag the
    gate of line 106 tests is off; the refund, the order and the card lookup
    of a live key each send their request (with [strictSSL] on), and none
    ends in the [ssl] error.  It is [disableSSLCheck(false)] that turns the
    flag on: then the live key is stopped with nothing sent, and a test key
    goes through with [strictSSL] off. *)
Theorem disableSSLCheck_true_live_key_sends :
  Worldpay rt cat (VStr "L_live_key") U = Normal live_client
  /\ disableSsl (disableSSLCheck live_client (VBool true)) = false
  /\ run (refundOrder rt cat (answers_200 U)
            (disableSSLCheck live_client (VBool true)) (VStr "ORD1") observe)
     = (Normal (Called VNull (VBool true)),
        [refundOrder_request live_client "ORD1"])
  /\ run (createOrder rt cat (answers_200 (VObj [ ("orderCode", VStr "ORD1") ]))
            (disableSSLCheck live_client (VBool true))
            (order_with_amount (VNum 100%float)) observe)
     = (Normal (Called (built_error rt cat "apierror" U U U U U) U),
        [createOrder_request live_client (order_with_amount (VNum 100%float))])
  /\ run (getStoredCardDetails rt cat
            (answers_200 (VObj [ ("paymentMethod", VObj [ ("id", VStr "abc") ]) ]))
            (disableSSLCheck live_client (VBool true)) (VStr "tok_1") observe)
     = (Normal (Called (built_error rt cat "apierror" U U U U U) U),
        [getStoredCardDetails_request live_client "tok_1"])
  /\ strictSSL (refundOrder_request live_client "ORD1") = true
  /\ run (refundOrder rt cat (answers_200 U)
            (disableSSLCheck live_client (VBool false)) (VStr "ORD1") observe)
     = (Normal (Called (built_error rt cat "ssl" U U U U U) U), [])
  /\ run (refundOrder rt cat (answers_200 U)
            (disableSSLCheck test_client (VBool false)) (VStr "ORD1") observe)
     = (Normal (Called VNull (VBool true)),
        [refundOrder_request (disableSSLCheck test_client (VBool false)) "ORD1"])
  /\ strictSSL (refundOrder_request (disableSSLCheck test_client (VBool false))
                                    "ORD1") = false.
Proof. repeat split; reflexivity. Qed.

(** C2.  Specified: for a valid order, status 200 with a body that has
    [orderCode] makes [createOrder] succeed with the whole response.  The code
    at that input: the request is sent, the reply is status 200 with
    [{orderCode: "ORD1"}], and the callback receives the [apierror] error and
    no payload.  (The half of the claim about a body without [orderCode]
    holds: the outcome is the same error.) *)
Theorem createOrder_200_with_orderCode_is_apierror :
  run (createOrder rt cat (answers_200 (VObj [ ("orderCode", VStr "ORD1") ]))
         live_client (order_with_amount (VNum 100%float)) observe)
  = (Normal (Called (built_error rt cat "apierror" U U U U U) U),
     [createOrder_request live_client (order_with_amount (VNum 100%float))])
  /\ run (createOrder rt cat (answers_200 (VObj [ ("paid", VBool true) ]))
            live_client (order_with_amount (VNum 100%float)) observe)
     = (Normal (Called (built_error rt cat "apierror" U U U U U) U),
        [createOrder_request live_client (order_with_amount (VNum 100%float))]).
Proof. split; reflexivity. Qed.

(** C3.  Specified: an order missing required fields fails validation with an
    [ip] error whose message lists every failing field.  The code at the order
    [{}], which misses all six: the six names are collected in the local
    array, in the order of the claim, but [checkOrderInput] returns [false],
    and [createOrder] goes on to send the order. *)
Theorem checkOrderInput_empty_order_passes :
  pushed_errors rt cat (VObj [])
  = Normal
      [ VStr (t_token cat); VStr (t_orderDescription cat); VStr (t_amount cat);
        VStr (t_currencyCode cat); VStr (t_name cat);
        VStr (t_billingAddress cat) ]
  /\ checkOrderInput rt cat (VObj []) = Normal (VBool false)
  /\ run (createOrder rt cat (answers_200 U) live_client (VObj []) observe)
     = (Normal (Called (built_error rt cat "apierror" U U U U U) U),
        [createOrder_request live_client (VObj [])]).
Proof. repeat split; reflexivity. Qed.

(** C4.  Specified: amount 100 is accepted and amounts 0, -5 and 10.5 are
    rejected.  The code: the test of line 70 flags 100 (a whole number, on
    which [isFloat] answers true) and lets 10.5 pass; and since
    [checkOrderInput] returns [false] whatever was collected, the orders with
    amounts 0, -5 and 10.5 are all accepted. *)
Theorem checkOrderInput_amounts :
  amount_check rt (VNum 100%float) = Normal true
  /\ amount_check rt (VNum 10.5%float) = Normal false
  /\ amount_check rt (VNum 0%float) = Normal true
  /\ amount_check rt (VNum (-5)%float) = Normal true
  /\ checkOrderInput rt cat (order_with_amount (VNum 100%float))
     = Normal (VBool false)
  /\ checkOrderInput rt cat (order_with_amount (VNum 0%float))
     = Normal (VBool false)
  /\ checkOrderInput rt cat (order_with_amount (VNum (-5)%float))
     = Normal (VBool false)
  /\ checkOrderInput rt cat (order_with_amount (VNum 10.5%float))
     = Normal (VBool false)
  /\ run (createOrder rt cat (answers_200 U) live_client
            (order_with_amount (VNum 0%float)) observe)
     = (Normal (Called (built_error rt cat "apierror" U U U U U) U),
        [createOrder_request live_client (order_with_amount (VNum 0%float))]).
Proof. repeat split; reflexivity. Qed.

(** C5.  Specified: for a non-empty token, status 200 with a body that has
    [paymentMethod] makes [getStoredCardDetails] succeed with that sub-object.
    The code at token ["tok_1"] and body [{paymentMethod: {id: "abc"}}]: the
    callback receives the [apierror] error.  (The rest of the claim holds: a
    body without [paymentMethod] gives the same error, and an empty or
    non-string token gives the [ip] error with nothing sent.) *)
Theorem getStoredCardDetails_200_with_paymentMethod_is_apierror :
  run (getStoredCardDetails rt cat
         (answers_200 (VObj [ ("paymentMethod", VObj [ ("id", VStr "abc") ]) ]))
         live_client (VStr "tok_1") observe)
  = (Normal (Called (built_error rt cat "apierror" U U U U U) U),
     [getStoredCardDetails_request live_client "tok_1"])
  /\ run (getStoredCardDetails rt cat (answers_200 (VObj []))
            live_client (VStr "tok_1") observe)
     = (Normal (Called (built_error rt cat "apierror" U U U U U) U),
        [getStoredCardDetails_request live_client "tok_1"])
  /\ run (getStoredCardDetails rt cat (answers_200 U) live_client (VStr "") observe)
     = (Normal (Called (built_error rt cat "ip" (VStr (t_token cat)) U U U U) U), [])
  /\ run (getStoredCardDetails rt cat (answers_200 U) live_client
            (VNum 7%float) observe)
     = (Normal (Called (built_error rt cat "ip" (VStr (t_token cat)) U U U U) U), []).
Proof.
  repeat split; try reflexivity.
  - unfold run.
    rewrite (getStoredCardDetails_bad_token rt cat (answers_200 U) live_client
               (VStr "") observe []) by (left; reflexivity).
    reflexivity.
  - unfold run.
    rewrite (getStoredCardDetails_bad_token rt cat (answers_200 U) live_client
               (VNum 7%float) observe []) by (right; discriminate).
    reflexivity.
Qed.

End Claims.

Section Confirmed.
Variable rt : Runtime.
Variable cat : catalog.
Variable net : request_options -> reply.

Local Abbreviation U := VUndefined.


(** C7.  [refundOrder] (lines 214-220): an order code that is empty or not a
    string gives the [ip] error with the refund text and the log is left as it
    was; a non-empty string [s] makes it call [sendRequest] on the path
    [orders/s/refund] with options that have no [expectResponse], and when the
    gate of line 106 lets the call through and the reply has status 200, the
    one request went to that path by POST and the caller receives [true]. *)
Theorem refundOrder_spec {R} (self : client) (orderCode : value)
        (cb : node_cb R) (log : list request_options) :
  ((truthy orderCode = false \/ typeof orderCode <> "string") ->
   refundOrder rt cat net self orderCode cb log
   = cb (built_error rt cat "ip" (VStr (t_refund_ordercode cat)) U U U U) U log)
  /\ (forall s, orderCode = VStr s -> s <> "" ->
      let options := VObj [ ("action", VStr ("orders/" ++ s ++ "/refund")) ] in
      refundOrder rt cat net self orderCode cb log
      = sendRequest rt cat net self options cb log
      /\ get_own options "expectResponse" = U
      /\ (ssl_gate self = Normal false ->
          truthy (r_err (net (refundOrder_request self s))) = false ->
          forall sc,
            get_prop (r_response (net (refundOrder_request self s))) "statusCode"
            = Normal sc ->
            strict_eq sc (VNum 200%float) = true ->
            refundOrder rt cat net self orderCode cb log
            = cb VNull (VBool true) (log ++ [refundOrder_request self s]))).
Proof.
  split.
  - intros Hbad. unfold refundOrder.
    assert (Hc : negb (truthy orderCode)
                 || negb (String.eqb (typeof orderCode) "string") = true).
    { destruct Hbad as [Hf | Hty].
      - rewrite Hf. reflexivity.
      - apply String.eqb_neq in Hty. rewrite Hty. apply orb_true_r. }
    rewrite Hc. rewrite fail_with_onError. reflexivity.
  - intros s -> Hne. cbv zeta. split; [|split; [reflexivity|]].
    + unfold refundOrder. rewrite (nonempty_string_truthy s Hne).
      change (String.eqb (typeof (VStr s)) "string") with true.
      cbn [negb orb]. cbv iota. reflexivity.
    + intros Hgate Herr sc Hsc H200.
      rewrite (refundOrder_outcomes rt cat net self s cb log Hne).
      unfold outcome_not_expecting. rewrite Hgate, Herr, Hsc, H200. reflexivity.
Qed.

(** C8.  The constructor (lines 20-32): a falsy service key, and so the empty
    string, [null] and [undefined], makes it throw the [key] error, and no
    client results; a truthy key, and so every non-empty string, gives a
    client holding that key, whose timeout is the given value, or 10 when
    that value is falsy (in particular when none was given). *)
Theorem Worldpay_constructor (key t : value) :
  (truthy key = false ->
   Worldpay rt cat key t = Throw (Thrown (built_error rt cat "key" U U U U U)))
  /\ (truthy key = true ->
      Worldpay rt cat key t
      = Normal {| serviceKey := key;
                  timeout := if truthy t then t else VNum 10%float;
                  disableSsl := false;
                  endpoint := "https://api.worldpay.com/v1/" |})
  /\ truthy (VStr "") = false /\ truthy VNull = false /\ truthy U = false
  /\ (forall s, s <> "" -> truthy (VStr s) = true).
Proof.
  split; [|split].
  - intros H. unfold Worldpay. rewrite H. reflexivity.
  - intros H. unfold Worldpay, js_or. rewrite H. reflexivity.
  - repeat split. exact nonempty_string_truthy.
Qed.

(** C9, as the code has it.  [processWebhook(token, cb)] takes the callback
    as its second argument and never reads the first.  The handler it returns
    calls that callback with the [notificationPost] error when the method of
    the request is not POST, with the [notificationUnknown] error when it is
    POST and the body is falsy, and with [(null, body)] otherwise. *)
Theorem processWebhook_handler {R} (token : argument R) (onReceived : node_cb R)
        (req m : value) (log : list request_options) :
  get_prop req "method" = Normal m ->
  (strict_eq m (VStr "POST") = false ->
   processWebhook rt cat token (IsFunction onReceived) req log
   = onReceived (built_error rt cat "notificationPost" U U U U U) U log)
  /\ (strict_eq m (VStr "POST") = true -> truthy (get_own req "body") = false ->
      processWebhook rt cat token (IsFunction onReceived) req log
      = onReceived (built_error rt cat "notificationUnknown" U U U U U) U log)
  /\ (strict_eq m (VStr "POST") = true -> truthy (get_own req "body") = true ->
      processWebhook rt cat token (IsFunction onReceived) req log
      = onReceived VNull (get_own req "body") log).
Proof.
  intros Hm.
  assert (Hb : get_prop req "body" = Normal (get_own req "body")).
  { destruct req; try reflexivity; discriminate Hm. }
  repeat split; intros Hp; try intros Hbody;
    unfold processWebhook, bind, lift; rewrite Hm, Hp; cbn [negb];
    try reflexivity; rewrite Hb, Hbody; reflexivity.
Qed.

(** C10.  [onError] called without a message (lines 283-289): it returns an
    error whose message is the catalog text followed by ["undefined"].  That
    is the case of the [key] error the constructor throws, of the [ssl]
    error of the gate, and of the bare [apierror] error [createOrder] hands
    over on status 200 (for an order that gets past line 70, that is, whose
    amount is not an object that fails to convert). *)
Theorem onError_without_message :
  (forall key template code h d c,
      get_own (errors cat) key = VStr template ->
      exists e, onError rt cat key U code h d c = Normal e
                /\ error_message e = VStr (template ++ "undefined"))
  /\ (forall key t,
         truthy key = false ->
         exists e, Worldpay rt cat key t = Throw (Thrown e)
                   /\ error_message e = VStr (t_key cat ++ "undefined"))
  /\ (forall R (self : client) (options : value) (cb : node_cb R) log,
         ssl_gate self = Normal true ->
         exists e, sendRequest rt cat net self options cb log = cb e U log
                   /\ error_message e = VStr (t_ssl cat ++ "undefined"))
  /\ (forall R (self : client) (order : value) (cb : node_cb R) log sc,
         convertible (get_own (js_or order (VObj [])) "amount") = true ->
         ssl_gate self = Normal false ->
         truthy (r_err (net (createOrder_request self order))) = false ->
         get_prop (r_response (net (createOrder_request self order))) "statusCode"
         = Normal sc ->
         strict_eq sc (VNum 200%float) = true ->
         exists e, createOrder rt cat net self order cb log
                   = cb e U (log ++ [createOrder_request self order])
                   /\ error_message e = VStr (t_apierror cat ++ "undefined")).
Proof.
  split; [|split; [|split]].
  - intros key template code h d c Hk.
    exists (built_error rt cat key U code h d c). split.
    + apply onError_built. reflexivity.
    + unfold built_error, error_message. cbn [truthy]. cbv iota.
      rewrite (catalog_entry_own rt cat key (VStr template)); [reflexivity | | exact Hk].
      rewrite Hk. discriminate.
  - intros key t Hkey. exists (built_error rt cat "key" U U U U U).
    split; [|reflexivity]. unfold Worldpay. rewrite Hkey. reflexivity.
  - intros R self options cb log Hgate. exists (built_error rt cat "ssl" U U U U U).
    split; [|reflexivity]. apply sendRequest_gate_blocks. exact Hgate.
  - intros R self order cb log sc Hamount Hgate Herr Hsc H200.
    exists (built_error rt cat "apierror" U U U U U).
    split; [|reflexivity].
    apply (createOrder_on_200 rt cat net self order cb log sc); assumption.
Qed.

End Confirmed.

(** ** The confirmed properties at concrete inputs *)



(** C7 on the empty order code and on ["ORD1"] answered with status 200. *)
Lemma refundOrder_spec_witness :
  refundOrder inert_runtime sample_catalog (answers_200 VUndefined) live_client
              (VStr "") observe []
  = observe (built_error inert_runtime sample_catalog "ip"
                     (VStr "No order code entered")
                     VUndefined VUndefined VUndefined VUndefined) VUndefined []
  /\ refundOrder inert_runtime sample_catalog (answers_200 VUndefined) live_client
                 (VStr "ORD1") observe []
     = observe VNull (VBool true) ([] ++ [refundOrder_request live_client "ORD1"]).
Proof.
  split.
  - apply (refundOrder_spec inert_runtime sample_catalog (answers_200 VUndefined)
             live_client (VStr "") observe []).
    left. reflexivity.
  - destruct (refundOrder_spec inert_runtime sample_catalog
                (answers_200 VUndefined) live_client (VStr "ORD1") observe [])
      as [_ Hstr].
    destruct (Hstr "ORD1" eq_refl ltac:(discriminate)) as [_ [_ H200]].
    apply (H200 eq_refl eq_refl (VNum 200%float) eq_refl eq_refl).
Defined.

(** C8 on the empty key and on a test key, with and without a timeout. *)
Lemma Worldpay_constructor_witness :
  Worldpay inert_runtime sample_catalog (VStr "") (VNum 30%float)
  = Throw (Thrown (built_error inert_runtime sample_catalog "key"
                           VUndefined VUndefined VUndefined VUndefined VUndefined))
  /\ Worldpay inert_runtime sample_catalog (VStr "T_test_key") (VNum 30%float)
     = Normal {| serviceKey := VStr "T_test_key";
                 timeout := VNum 30%float;
                 disableSsl := false;
                 endpoint := "https://api.worldpay.com/v1/" |}
  /\ Worldpay inert_runtime sample_catalog (VStr "T_test_key") VUndefined
     = Normal test_client.
Proof.
  split; [|split].
  - apply (Worldpay_constructor inert_runtime sample_catalog
             (VStr "") (VNum 30%float)).
    reflexivity.
  - apply (Worldpay_constructor inert_runtime sample_catalog
             (VStr "T_test_key") (VNum 30%float)).
    reflexivity.
  - apply (Worldpay_constructor inert_runtime sample_catalog
             (VStr "T_test_key") VUndefined).
    reflexivity.
Defined.

(** C9 as stated.  [processWebhook(onReceived)], the callback being the
    only argument: the second parameter is then [undefined], and the handler
    throws where it would call it, on a GET, on a POST without body and on a
    POST with body [{foo: 1}]; the function passed is never called.  And
    with the callback in second place: a POST whose body is the empty object
    [{}] is not refused but handed to the callback, and a POST whose body is
    [0] or [false], which is there and not empty, is refused with the
    [notificationUnknown] error; what line 266 tests is whether the body is
    falsy. *)
Lemma processWebhook_as_stated_counterexample :
  run (processWebhook inert_runtime sample_catalog
         (IsFunction observe) (NotFunction VUndefined)
         (VObj [ ("method", VStr "GET") ]))
  = (Throw TypeError, [])
  /\ run (processWebhook inert_runtime sample_catalog
            (IsFunction observe) (NotFunction VUndefined)
            (VObj [ ("method", VStr "POST") ]))
     = (Throw TypeError, [])
  /\ run (processWebhook inert_runtime sample_catalog
            (IsFunction observe) (NotFunction VUndefined)
            (VObj [ ("method", VStr "POST");
                    ("body", VObj [ ("foo", VNum 1%float) ]) ]))
     = (Throw TypeError, [])
  /\ run (processWebhook inert_runtime sample_catalog
            (IsFunction observe) (NotFunction VUndefined)
            (VObj [ ("method", VStr "POST");
                    ("body", VObj [ ("foo", VNum 1%float) ]) ]))
     <> run (observe VNull (VObj [ ("foo", VNum 1%float) ]))
  /\ run (processWebhook inert_runtime sample_catalog
            (NotFunction VUndefined) (IsFunction observe)
            (VObj [ ("method", VStr "POST"); ("body", VObj []) ]))
     = (Normal (Called VNull (VObj [])), [])
  /\ run (processWebhook inert_runtime sample_catalog
            (NotFunction VUndefined) (IsFunction observe)
            (VObj [ ("method", VStr "POST"); ("body", VNum 0%float) ]))
     = (Normal (Called (built_error inert_runtime sample_catalog
                                    "notificationUnknown" VUndefined VUndefined
                                    VUndefined VUndefined VUndefined)
                       VUndefined), [])
  /\ run (processWebhook inert_runtime sample_catalog
            (NotFunction VUndefined) (IsFunction observe)
            (VObj [ ("method", VStr "POST"); ("body", VBool false) ]))
     = (Normal (Called (built_error inert_runtime sample_catalog
                                    "notificationUnknown" VUndefined VUndefined
                                    VUndefined VUndefined VUndefined)
                       VUndefined), []).
Proof. repeat split; try reflexivity. discriminate. Qed.

(** C9, as the code has it, on a GET, on a POST without body and on a POST
    with body [{foo: 1}]. *)
Lemma processWebhook_handler_witness :
  processWebhook inert_runtime sample_catalog (NotFunction (VStr "tok_1"))
                 (IsFunction observe) (VObj [ ("method", VStr "GET") ]) []
  = observe (built_error inert_runtime sample_catalog "notificationPost"
                     VUndefined VUndefined VUndefined VUndefined VUndefined)
            VUndefined []
  /\ processWebhook inert_runtime sample_catalog (NotFunction (VStr "tok_1"))
                    (IsFunction observe) (VObj [ ("method", VStr "POST") ]) []
     = observe (built_error inert_runtime sample_catalog "notificationUnknown"
                        VUndefined VUndefined VUndefined VUndefined VUndefined)
               VUndefined []
  /\ processWebhook inert_runtime sample_catalog (NotFunction (VStr "tok_1"))
                    (IsFunction observe)
                    (VObj [ ("method", VStr "POST");
                            ("body", VObj [ ("foo", VNum 1%float) ]) ]) []
     = observe VNull (VObj [ ("foo", VNum 1%float) ]) [].
Proof.
  split; [|split].
  - apply (processWebhook_handler inert_runtime sample_catalog
             (NotFunction (VStr "tok_1")) observe
             (VObj [ ("method", VStr "GET") ]) (VStr "GET") [] eq_refl).
    reflexivity.
  - apply (processWebhook_handler inert_runtime sample_catalog
             (NotFunction (VStr "tok_1")) observe
             (VObj [ ("method", VStr "POST") ]) (VStr "POST") [] eq_refl);
      reflexivity.
  - apply (processWebhook_handler inert_runtime sample_catalog
             (NotFunction (VStr "tok_1")) observe
             (VObj [ ("method", VStr "POST");
                     ("body", VObj [ ("foo", VNum 1%float) ]) ])
             (VStr "POST") [] eq_refl);
      reflexivity.
Defined.

(** C10 at the [uanv] entry of the sample catalog, at [new Worldpay(null)],
    and at a live key with the flag on. *)
Lemma onError_without_message_witness :
  (exists e,
      onError inert_runtime sample_catalog "uanv" VUndefined
              (VNum 503%float) VUndefined VUndefined VUndefined = Normal e
      /\ error_message e = VStr "Worldpay is currently unavailableundefined")
  /\ (exists e,
         Worldpay inert_runtime sample_catalog VNull VUndefined = Throw (Thrown e)
         /\ error_message e = VStr "Please enter your service keyundefined")
  /\ (exists e,
         sendRequest inert_runtime sample_catalog (answers_200 VUndefined)
                     (disableSSLCheck live_client (VBool false))
                     (VObj [ ("action", VStr "orders") ]) observe []
         = observe e VUndefined []
         /\ error_message e = VStr "SSL check failedundefined").
Proof.
  destruct (onError_without_message inert_runtime sample_catalog
              (answers_200 VUndefined)) as [Hany [Hnew [Hgate _]]].
  split; [|split].
  - apply (Hany "uanv" "Worldpay is currently unavailable"). reflexivity.
  - apply (Hnew VNull VUndefined). reflexivity.
  - apply (Hgate cb_call (disableSSLCheck live_client (VBool false))). reflexivity.
Defined.

(** ** Further properties of the reply handler *)

Section Reply.
Variable rt : Runtime.
Variable cat : catalog.

Local Abbreviation U := VUndefined.

(** X1.  The reply handler (lines 121-156) ends in one of six ways, and in
    none of them is the log changed: the transport error handed on, the
    [uanv] error, the [apierror] error built from the response and its
    status, [(null, true)], [(null, body)], or a TypeError.  The error of
    lines 141-148, built from [response.description] and
    [response.customCode], is never produced. *)
Theorem callback_outcomes {R} (options : value) (cb : node_cb R)
        (err response body : value) (log : list request_options) :
  (truthy err = true
   /\ callback rt cat options cb err response body log = cb err U log)
  \/ callback rt cat options cb err response body log
     = cb (uanv_error rt cat) U log
  \/ (exists sc, get_prop response "statusCode" = Normal sc
                 /\ callback rt cat options cb err response body log
                    = cb (built_error rt cat "apierror" response sc U U U) U log)
  \/ callback rt cat options cb err response body log
     = cb VNull (VBool true) log
  \/ callback rt cat options cb err response body log = cb VNull body log
  \/ callback rt cat options cb err response body log = (Throw TypeError, log).
Proof.
  destruct (truthy (get_own options "expectResponse")) eqn:Hx.
  - rewrite (callback_expecting rt cat options cb err response body log Hx).
    destruct (truthy err) eqn:He; [left; split; reflexivity|].
    destruct (strict_eq response VNull || strict_eq response (VBool false));
      [right; left; reflexivity|].
    destruct (get_prop response "statusCode") as [sc|t] eqn:Hsc.
    + destruct (strict_eq sc (VNum 200%float)).
      * do 4 right. left. reflexivity.
      * right; left; reflexivity.
    + do 5 right. rewrite (get_prop_thrown _ _ _ Hsc). reflexivity.
  - rewrite (callback_not_expecting rt cat options cb err response body log Hx).
    destruct (truthy err) eqn:He; [left; split; reflexivity|].
    destruct (get_prop response "statusCode") as [sc|t] eqn:Hsc.
    + destruct (strict_eq sc (VNum 200%float)).
      * do 3 right. left. reflexivity.
      * destruct (convertible response).
        -- right; right; left. exists sc. split; reflexivity.
        -- do 5 right. reflexivity.
    + do 5 right. rewrite (get_prop_thrown _ _ _ Hsc). reflexivity.
Qed.

(** X2.  With a transport error, or with a response that is neither [null]
    nor [undefined] and that converts to a string (any response but an
    object with an own [toString]), the reply handler calls the caller's
    callback, once, and does not throw. *)
Theorem callback_calls_back {R} (options : value) (cb : node_cb R)
        (err response body : value) (log : list request_options) :
  truthy err = true
  \/ (response <> VUndefined /\ response <> VNull
      /\ convertible response = true) ->
  exists e d, callback rt cat options cb err response body log = cb e d log.
Proof.
  intros H.
  destruct (truthy err) eqn:He.
  - exists err, U. unfold callback. rewrite He. reflexivity.
  - destruct H as [H | [Hu [Hn Hc]]]; [discriminate|].
    pose proof (get_prop_defined response "statusCode" Hu Hn) as Hsc.
    destruct (truthy (get_own options "expectResponse")) eqn:Hx.
    + rewrite (callback_expecting rt cat options cb err response body log Hx).
      rewrite He, Hsc.
      destruct (strict_eq response VNull || strict_eq response (VBool false));
        [eexists; eexists; reflexivity|].
      destruct (strict_eq _ (VNum 200%float)); eexists; eexists; reflexivity.
    + rewrite (callback_not_expecting rt cat options cb err response body log Hx).
      rewrite He, Hsc, Hc.
      destruct (strict_eq _ (VNum 200%float)); eexists; eexists; reflexivity.
Qed.

(** X3.  Without a transport error, a response that is [undefined] makes the
    reply handler throw a TypeError (line 131 or 136 reads its [statusCode]),
    and so does a [null] response for a caller that does not expect one; the
    caller's callback is not called. *)
Theorem callback_missing_response_throws {R} (options : value) (cb : node_cb R)
        (err response body : value) (log : list request_options) :
  truthy err = false ->
  response = VUndefined
  \/ (response = VNull /\ truthy (get_own options "expectResponse") = false) ->
  callback rt cat options cb err response body log = (Throw TypeError, log).
Proof.
  intros He H.
  destruct (truthy (get_own options "expectResponse")) eqn:Hx.
  - rewrite (callback_expecting rt cat options cb err response body log Hx). rewrite He.
    destruct H as [-> | [_ Hf]]; [reflexivity | discriminate].
  - rewrite (callback_not_expecting rt cat options cb err response body log Hx).
    rewrite He. destruct H as [-> | [-> _]]; reflexivity.
Qed.

(** X4.  The error-first convention: whenever the reply handler calls back,
    it passes either a truthy error and no data, or [null] and the data,
    which is [true] or the body of the reply. *)
Theorem callback_error_first (options err response body e d : value)
        (log log' : list request_options) :
  callback rt cat options observe err response body log
  = (Normal (Called e d), log') ->
  log' = log
  /\ ((truthy e = true /\ d = U) \/ (e = VNull /\ (d = VBool true \/ d = body))).
Proof.
  assert (Herr : forall x, truthy x = true ->
            observe x U log = (Normal (Called e d), log') ->
            log' = log /\ ((truthy e = true /\ d = U)
                           \/ (e = VNull /\ (d = VBool true \/ d = body)))).
  { intros x Hx. unfold observe, ret. intros [= <- <- <-].
    split; [reflexivity | left; split; [exact Hx | reflexivity]]. }
  assert (Hok : forall x, x = VBool true \/ x = body ->
            observe VNull x log = (Normal (Called e d), log') ->
            log' = log /\ ((truthy e = true /\ d = U)
                           \/ (e = VNull /\ (d = VBool true \/ d = body)))).
  { intros x Hx. unfold observe, ret. intros [= <- <- <-].
    split; [reflexivity | right; split; [reflexivity | exact Hx]]. }
  destruct (truthy (get_own options "expectResponse")) eqn:Hx.
  - rewrite (callback_expecting rt cat options observe err response body log Hx).
    destruct (truthy err) eqn:He; [apply Herr; exact He|].
    destruct (strict_eq response VNull || strict_eq response (VBool false));
      [apply Herr; reflexivity|].
    destruct (get_prop response "statusCode") as [sc|t]; [|discriminate].
    destruct (strict_eq sc (VNum 200%float));
      [apply Hok; right; reflexivity | apply Herr; reflexivity].
  - rewrite (callback_not_expecting rt cat options observe err response body log Hx).
    destruct (truthy err) eqn:He; [apply Herr; exact He|].
    destruct (get_prop response "statusCode") as [sc|t]; [|discriminate].
    destruct (strict_eq sc (VNum 200%float)); [apply Hok; left; reflexivity|].
    destruct (convertible response); [apply Herr; reflexivity | discriminate].
Qed.

End Reply.

(** ** Further properties of the requests sent *)

Section Requests.
Variable rt : Runtime.
Variable cat : catalog.
Variable net : request_options -> reply.

Local Abbreviation U := VUndefined.

Lemma observe_keeps_log : keeps_log observe.
Proof. intros err data log. reflexivity. Qed.

(** The reply handler sends nothing. *)
Lemma callback_keeps_log {R} (options : value) (cb : node_cb R)
      (err response body : value) (log : list request_options) :
  keeps_log cb -> snd (callback rt cat options cb err response body log) = log.
Proof.
  intros Hk.
  destruct (truthy (get_own options "expectResponse")) eqn:Hx.
  - rewrite (callback_expecting rt cat options cb err response body log Hx).
    destruct (truthy err); [apply Hk|].
    destruct (strict_eq response VNull || strict_eq response (VBool false));
      [apply Hk|].
    destruct (get_prop response "statusCode") as [sc|t]; [|reflexivity].
    destruct (strict_eq sc (VNum 200%float)); apply Hk.
  - rewrite (callback_not_expecting rt cat options cb err response body log Hx).
    destruct (truthy err); [apply Hk|].
    destruct (get_prop response "statusCode") as [sc|t]; [|reflexivity].
    destruct (strict_eq sc (VNum 200%float)); [apply Hk|].
    destruct (convertible response); [apply Hk | reflexivity].
Qed.

(** The log [sendRequest] leaves: the request, when the gate is open and
    line 111 does not throw. *)
Lemma sendRequest_log {R} (self : client) (options : value) (k : node_cb R)
      (log : list request_options) :
  keeps_log k ->
  snd (sendRequest rt cat net self options k log)
  = match ssl_gate self with
    | Normal false =>
        if convertible (get_own (js_or options (VObj [])) "action")
        then log ++ [sendRequest_request rt self options]
        else log
    | _ => log
    end.
Proof.
  intros Hk. destruct (ssl_gate self) as [[|]|t] eqn:Hgate.
  - rewrite (sendRequest_gate_blocks rt cat net self options k log Hgate).
    apply Hk.
  - rewrite (sendRequest_gate_open rt cat net (R:=R) self _ _ _ Hgate). cbv zeta.
    destruct (convertible _); [|reflexivity].
    apply callback_keeps_log. exact Hk.
  - unfold sendRequest, bind, lift. rewrite Hgate. reflexivity.
Qed.

(** A value that passes the test of lines 215 and 229 is a non-empty string. *)
Lemma accepted_is_string (v : value) :
  negb (truthy v) || negb (String.eqb (typeof v) "string") = false ->
  exists s, v = VStr s /\ s <> "".
Proof.
  intros H. apply orb_false_elim in H. destruct H as [Ht Hs].
  apply negb_false_iff in Ht. apply negb_false_iff in Hs.
  destruct v; try discriminate.
  exists s. split; [reflexivity|].
  intros ->. discriminate.
Qed.

Lemma createOrder_log (self : client) (order : value) :
  snd (run (createOrder rt cat net self order observe))
  = if convertible (get_own (js_or order (VObj [])) "amount")
    then match ssl_gate self with
         | Normal false => [createOrder_request self order]
         | _ => []
         end
    else [].
Proof.
  unfold run. rewrite createOrder_outcomes.
  destruct (convertible (get_own _ "amount")); [|reflexivity].
  unfold outcome_not_expecting.
  destruct (ssl_gate self) as [[|]|t]; try reflexivity.
  destruct (truthy (r_err _)); [reflexivity|].
  destruct (get_prop _ "statusCode") as [sc|t]; [|reflexivity].
  destruct (strict_eq sc _); [reflexivity|].
  destruct (convertible _); reflexivity.
Qed.

Lemma refundOrder_log (self : client) (orderCode : value) :
  snd (run (refundOrder rt cat net self orderCode observe)) = []
  \/ exists s, orderCode = VStr s /\ s <> ""
               /\ ssl_gate self = Normal false
               /\ snd (run (refundOrder rt cat net self orderCode observe))
                  = [refundOrder_request self s].
Proof.
  destruct (negb (truthy orderCode)
            || negb (String.eqb (typeof orderCode) "string")) eqn:Hbad.
  - left. unfold run, refundOrder. rewrite Hbad, fail_with_onError. reflexivity.
  - destruct (accepted_is_string orderCode Hbad) as [s [-> Hne]].
    unfold run. rewrite (refundOrder_outcomes rt cat net self s observe [] Hne).
    unfold outcome_not_expecting.
    destruct (ssl_gate self) as [[|]|t]; try (left; reflexivity).
    right. exists s. repeat split; try assumption.
    destruct (truthy (r_err _)); [reflexivity|].
    destruct (get_prop _ "statusCode") as [sc|t]; [|reflexivity].
    destruct (strict_eq sc _); [reflexivity|].
    destruct (convertible _); reflexivity.
Qed.

Lemma getStoredCardDetails_log (self : client) (token : value) :
  snd (run (getStoredCardDetails rt cat net self token observe)) = []
  \/ exists s, token = VStr s /\ s <> ""
               /\ ssl_gate self = Normal false
               /\ snd (run (getStoredCardDetails rt cat net self token observe))
                  = [getStoredCardDetails_request self s].
Proof.
  destruct (negb (truthy token)
            || negb (String.eqb (typeof token) "string")) eqn:Hbad.
  - left. unfold run, getStoredCardDetails. rewrite Hbad, fail_with_onError.
    reflexivity.
  - destruct (accepted_is_string token Hbad) as [s [-> Hne]].
    unfold run.
    rewrite (getStoredCardDetails_outcomes rt cat net self s observe [] Hne).
    unfold outcome_not_expecting.
    destruct (ssl_gate self) as [[|]|t]; try (left; reflexivity).
    right. exists s. repeat split; try assumption.
    destruct (truthy (r_err _)); [reflexivity|].
    destruct (get_prop _ "statusCode") as [sc|t]; [|reflexivity].
    destruct (strict_eq sc _); [reflexivity|].
    destruct (convertible _); reflexivity.
Qed.

(** An open gate with a key that does not start with ['T'] means the flag
    is off. *)
Lemma open_gate_flag_off (self : client) :
  strict_eq (get_own (serviceKey self) "0") (VStr "T") = false ->
  ssl_gate self = Normal false -> disableSsl self = false.
Proof.
  intros Hkey. unfold ssl_gate.
  destruct (disableSsl self); [|reflexivity].
  destruct (serviceKey self); simpl in *; try discriminate;
    rewrite ?Hkey; discriminate.
Qed.

End Requests.

Section Safety.
Variable rt : Runtime.
Variable cat : catalog.
Variable net : request_options -> reply.

Local Abbreviation U := VUndefined.

(** X5.  No operation sends more than one request: [sendRequest],
    [createOrder], [refundOrder] and [getStoredCardDetails] each leave at
    most one entry in the log, whatever their arguments and whatever the
    service answers. *)
Theorem operations_send_at_most_one_request
        (self : client) (options order orderCode token : value) :
  length (snd (run (sendRequest rt cat net self options observe))) <= 1
  /\ length (snd (run (createOrder rt cat net self order observe))) <= 1
  /\ length (snd (run (refundOrder rt cat net self orderCode observe))) <= 1
  /\ length (snd (run (getStoredCardDetails rt cat net self token observe))) <= 1.
Proof.
  repeat split.
  - unfold run. rewrite (sendRequest_log rt cat net) by apply observe_keeps_log.
    destruct (ssl_gate self) as [[|]|t]; try destruct (convertible _);
      simpl; lia.
  - rewrite createOrder_log.
    destruct (convertible _); destruct (ssl_gate self) as [[|]|t]; simpl; lia.
  - destruct (refundOrder_log rt cat net self orderCode)
      as [-> | [s [_ [_ [_ ->]]]]]; simpl; lia.
  - destruct (getStoredCardDetails_log rt cat net self token)
      as [-> | [s [_ [_ [_ ->]]]]]; simpl; lia.
Qed.

(** X6.  With a service key that does not start with ['T'], no operation
    ever sends a request with certificate checking off: every request in
    the log has [strictSSL] on, whatever the flag and the arguments. *)
Theorem non_test_key_requests_are_verified
        (self : client) (options order orderCode token : value)
        (req : request_options) :
  strict_eq (get_own (serviceKey self) "0") (VStr "T") = false ->
  (In req (snd (run (sendRequest rt cat net self options observe)))
   \/ In req (snd (run (createOrder rt cat net self order observe)))
   \/ In req (snd (run (refundOrder rt cat net self orderCode observe)))
   \/ In req (snd (run (getStoredCardDetails rt cat net self token observe)))) ->
  strictSSL req = true.
Proof.
  intros Hkey Hin.
  assert (Hflag : ssl_gate self = Normal false -> strictSSL req = negb (disableSsl self)
                  -> strictSSL req = true).
  { intros Hgate ->. rewrite (open_gate_flag_off self Hkey Hgate). reflexivity. }
  destruct Hin as [Hin | [Hin | [Hin | Hin]]].
  - unfold run in Hin.
    rewrite (sendRequest_log rt cat net) in Hin by apply observe_keeps_log.
    destruct (ssl_gate self) as [[|]|t] eqn:Hgate; try contradiction.
    destruct (convertible _); [|contradiction].
    destruct Hin as [<- | []]. apply Hflag; reflexivity.
  - rewrite createOrder_log in Hin.
    destruct (convertible _); [|contradiction].
    destruct (ssl_gate self) as [[|]|t] eqn:Hgate; try contradiction.
    destruct Hin as [<- | []]. apply Hflag; reflexivity.
  - destruct (refundOrder_log rt cat net self orderCode)
      as [Hl | [s [_ [_ [Hgate Hl]]]]]; rewrite Hl in Hin; [contradiction|].
    destruct Hin as [<- | []]. apply Hflag; [exact Hgate | reflexivity].
  - destruct (getStoredCardDetails_log rt cat net self token)
      as [Hl | [s [_ [_ [Hgate Hl]]]]]; rewrite Hl in Hin; [contradiction|].
    destruct Hin as [<- | []]. apply Hflag; [exact Hgate | reflexivity].
Qed.

(** X7.  With the flag [disableSsl] on and a key that does not start with
    ['T'], [sendRequest] and every operation whose input gets past its
    validation call back with the [ssl] error and send nothing: for
    [createOrder] that is an order whose amount line 70 can convert, for
    [refundOrder] and [getStoredCardDetails] a non-empty string. *)
Theorem flag_on_blocks_every_operation {R} (self : client)
        (options order : value) (orderCode token : string)
        (cb : node_cb R) (log : list request_options) :
  disableSsl self = true ->
  truthy (serviceKey self) = true ->
  strict_eq (get_own (serviceKey self) "0") (VStr "T") = false ->
  convertible (get_own (js_or order (VObj [])) "amount") = true ->
  orderCode <> "" -> token <> "" ->
  sendRequest rt cat net self options cb log
  = cb (built_error rt cat "ssl" U U U U U) U log
  /\ createOrder rt cat net self order cb log
     = cb (built_error rt cat "ssl" U U U U U) U log
  /\ refundOrder rt cat net self (VStr orderCode) cb log
     = cb (built_error rt cat "ssl" U U U U U) U log
  /\ getStoredCardDetails rt cat net self (VStr token) cb log
     = cb (built_error rt cat "ssl" U U U U U) U log.
Proof.
  intros Hflag Hkey HT Hamount Hcode Htok.
  assert (Hgate : ssl_gate self = Normal true).
  { unfold ssl_gate. rewrite Hflag.
    destruct (serviceKey self); try discriminate Hkey;
      cbn [get_prop bindC]; rewrite HT; reflexivity. }
  repeat split.
  - apply sendRequest_gate_blocks. exact Hgate.
  - rewrite createOrder_outcomes, Hamount. unfold outcome_not_expecting.
    rewrite Hgate. reflexivity.
  - rewrite (refundOrder_outcomes rt cat net self orderCode cb log Hcode).
    unfold outcome_not_expecting. rewrite Hgate. reflexivity.
  - rewrite (getStoredCardDetails_outcomes rt cat net self token cb log Htok).
    unfold outcome_not_expecting. rewrite Hgate. reflexivity.
Qed.

(** X8.  With the flag on and a key that starts with ['T'], the gate lets
    [sendRequest] through: when the action converts to a string (line 111),
    one request is sent, with certificate checking off. *)
Theorem flag_on_test_key_sends_unverified (self : client) (options : value) :
  disableSsl self = true ->
  strict_eq (get_own (serviceKey self) "0") (VStr "T") = true ->
  convertible (get_own (js_or options (VObj [])) "action") = true ->
  snd (run (sendRequest rt cat net self options observe))
  = [sendRequest_request rt self options]
  /\ strictSSL (sendRequest_request rt self options) = false.
Proof.
  intros Hflag HT Haction.
  assert (Hgate : ssl_gate self = Normal false).
  { unfold ssl_gate. rewrite Hflag.
    destruct (serviceKey self); try discriminate HT;
      cbn [get_prop bindC]; rewrite HT; reflexivity. }
  split.
  - unfold run. rewrite (sendRequest_log rt cat net) by apply observe_keeps_log.
    rewrite Hgate, Haction. reflexivity.
  - unfold sendRequest_request. simpl. rewrite Hflag. reflexivity.
Qed.

(** X9.  Every request an operation sends carries the client's service key
    as its [Authorization] and the client's timeout. *)
Theorem requests_carry_key_and_timeout
        (self : client) (options order orderCode token : value)
        (req : request_options) :
  (In req (snd (run (sendRequest rt cat net self options observe)))
   \/ In req (snd (run (createOrder rt cat net self order observe)))
   \/ In req (snd (run (refundOrder rt cat net self orderCode observe)))
   \/ In req (snd (run (getStoredCardDetails rt cat net self token observe)))) ->
  authorization req = serviceKey self /\ timeout_opt req = timeout self.
Proof.
  intros [Hin | [Hin | [Hin | Hin]]].
  - unfold run in Hin.
    rewrite (sendRequest_log rt cat net) in Hin by apply observe_keeps_log.
    destruct (ssl_gate self) as [[|]|t]; try contradiction.
    destruct (convertible _); [|contradiction].
    destruct Hin as [<- | []]. split; reflexivity.
  - rewrite createOrder_log in Hin.
    destruct (convertible _); [|contradiction].
    destruct (ssl_gate self) as [[|]|t]; try contradiction.
    destruct Hin as [<- | []]. split; reflexivity.
  - destruct (refundOrder_log rt cat net self orderCode)
      as [Hl | [s [_ [_ [_ Hl]]]]]; rewrite Hl in Hin; [contradiction|].
    destruct Hin as [<- | []]. split; reflexivity.
  - destruct (getStoredCardDetails_log rt cat net self token)
      as [Hl | [s [_ [_ [_ Hl]]]]]; rewrite Hl in Hin; [contradiction|].
    destruct Hin as [<- | []]. split; reflexivity.
Qed.

(** X10.  [setTimeout] then [sendRequest]: the request carries the timeout
    given to [setTimeout], or 3 when that value is falsy; and [setTimeout]
    does not move the gate. *)
Theorem setTimeout_reaches_request (self : client) (t options : value)
        (req : request_options) :
  ssl_gate (setTimeout self t) = ssl_gate self
  /\ (In req (snd (run (sendRequest rt cat net (setTimeout self t) options observe))) ->
      timeout_opt req = (if truthy t then t else VNum 3%float)
      /\ authorization req = serviceKey self).
Proof.
  split; [reflexivity|].
  intros Hin. unfold run in Hin.
  rewrite (sendRequest_log rt cat net) in Hin by apply observe_keeps_log.
  destruct (ssl_gate (setTimeout self t)) as [[|]|e]; try contradiction.
  destruct (convertible _); [|contradiction].
  destruct Hin as [<- | []]. split; reflexivity.
Qed.

(** X11.  A client as the constructor returns it sends its requests with
    certificate checking on: when the action converts to a string, exactly
    one request goes out, to the fixed endpoint followed by that string,
    with the key and with the timeout given, or 10. *)
Theorem fresh_client_sends_verified (key t options : value) (self : client) :
  Worldpay rt cat key t = Normal self ->
  convertible (get_own (js_or options (VObj [])) "action") = true ->
  snd (run (sendRequest rt cat net self options observe))
  = [sendRequest_request rt self options]
  /\ strictSSL (sendRequest_request rt self options) = true
  /\ authorization (sendRequest_request rt self options) = key
  /\ timeout_opt (sendRequest_request rt self options)
     = (if truthy t then t else VNum 10%float)
  /\ url (sendRequest_request rt self options)
     = VStr ("https://api.worldpay.com/v1/"
             ++ string_of rt (get_own (js_or options (VObj [])) "action")).
Proof.
  unfold Worldpay. destruct (truthy key); [|discriminate].
  intros [= <-] Haction. split; [|repeat split].
  unfold run. rewrite (sendRequest_log rt cat net) by apply observe_keeps_log.
  cbn [ssl_gate disableSsl]. rewrite Haction. reflexivity.
Qed.

(** X12.  [sendRequest] without options, or with a falsy value for them,
    behaves as with [{}]: when the gate is open it POSTs to the endpoint
    followed by ["undefined"], with [json: true]. *)
Theorem sendRequest_without_options {R} (self : client) (options : value)
        (cb : node_cb R) (log : list request_options) :
  truthy options = false ->
  sendRequest rt cat net self options cb log
  = sendRequest rt cat net self (VObj []) cb log
  /\ sendRequest_request rt self options
     = sent_request self "undefined" "POST" (VBool true).
Proof.
  intros Hf. split.
  - unfold sendRequest, js_or. rewrite Hf. reflexivity.
  - unfold sendRequest_request, js_or. rewrite Hf. reflexivity.
Qed.

(** X13.  A caller of [sendRequest] whose options have a truthy
    [expectResponse] and an action that converts to a string receives the
    body of the reply as it is when the reply is an object with status 200
    and there is no transport error. *)
Theorem sendRequest_expecting_200_gives_body {R} (self : client)
        (options : value) (cb : node_cb R) (log : list request_options)
        (props : list (string * value)) :
  ssl_gate self = Normal false ->
  convertible (get_own (js_or options (VObj [])) "action") = true ->
  truthy (get_own (js_or options (VObj [])) "expectResponse") = true ->
  truthy (r_err (net (sendRequest_request rt self options))) = false ->
  r_response (net (sendRequest_request rt self options)) = VObj props ->
  strict_eq (get_own (VObj props) "statusCode") (VNum 200%float) = true ->
  sendRequest rt cat net self options cb log
  = cb VNull (r_body (net (sendRequest_request rt self options)))
       (log ++ [sendRequest_request rt self options]).
Proof.
  intros Hgate Haction Hx Herr Hresp H200.
  rewrite (sendRequest_gate_open rt cat net (R:=R) self _ _ _ Hgate). cbv zeta.
  rewrite Haction.
  rewrite (callback_expecting rt cat _ cb _ _ _ _ Hx).
  rewrite Herr, Hresp. cbn [strict_eq orb get_prop]. rewrite H200. reflexivity.
Qed.

End Safety.

(** ** Further properties of the errors, the validation and the webhook *)

Section Edges.
Variable rt : Runtime.
Variable cat : catalog.
Variable net : request_options -> reply.

Local Abbreviation U := VUndefined.

(** A key without an own entry in the catalog reads an inherited member,
    or [undefined]. *)
Lemma catalog_entry_missing (key : string) :
  get_own (errors cat) key = U ->
  catalog_entry rt cat key
  = if inherited key then VStr (member_text rt key) else U.
Proof.
  unfold catalog_entry, errors, get_own. cbn [lookup].
  repeat match goal with
         | |- context [String.eqb ?a key] =>
             destruct (String.eqb a key); [discriminate|]
         end.
  reflexivity.
Qed.

(** X14.  [onError] (lines 283-289) for a key with a text in the catalog.
    With a non-empty string as message it returns the error whose message
    is the catalog text, [" - "] and that string, and whose four other
    fields are the four other arguments; with the empty string the message
    is the catalog text alone.  With a message that does not convert to a
    string (an object with an own [toString]), line 285 throws a
    TypeError and no error is built. *)
Theorem onError_with_detail (key template detail : string)
        (m code h d c : value) :
  get_own (errors cat) key = VStr template ->
  (detail <> "" ->
   onError rt cat key (VStr detail) code h d c
   = Normal (WorldpayException (VStr (template ++ " - " ++ detail)) code h d c))
  /\ onError rt cat key (VStr "") code h d c
     = Normal (WorldpayException (VStr template) code h d c)
  /\ (convertible m = false ->
      onError rt cat key m code h d c = Throw TypeError).
Proof.
  intros Hk.
  assert (He : catalog_entry rt cat key = VStr template).
  { apply catalog_entry_own; [rewrite Hk; discriminate | exact Hk]. }
  split; [|split].
  - intros Hne. rewrite onError_built by reflexivity. unfold built_error.
    rewrite (nonempty_string_truthy detail Hne), He. reflexivity.
  - rewrite onError_built by reflexivity. unfold built_error.
    cbn [truthy String.eqb negb]. cbv iota. rewrite He.
    cbn [plus string_of]. rewrite append_empty_r. reflexivity.
  - apply onError_throws.
Qed.

(** X15.  [onError] with a key that has no entry of its own in the catalog.
    When the key names no member of [Object.prototype] either, the entry is
    [undefined]: with a non-empty string as message the message of the
    error is ["undefined - "] and that string, and without a message it is
    the number NaN.  When the key names a member of [Object.prototype], the
    message without a message argument is the text of that member followed
    by ["undefined"]. *)
Theorem onError_unknown_key (key detail : string) (code h d c : value) :
  get_own (errors cat) key = U ->
  (inherited key = false ->
   (detail <> "" ->
    onError rt cat key (VStr detail) code h d c
    = Normal (WorldpayException (VStr ("undefined - " ++ detail)) code h d c))
   /\ onError rt cat key U code h d c
      = Normal (WorldpayException (VNum nan) code h d c))
  /\ (inherited key = true ->
      onError rt cat key U code h d c
      = Normal (WorldpayException (VStr (member_text rt key ++ "undefined"))
                                  code h d c)).
Proof.
  intros Hk. pose proof (catalog_entry_missing key Hk) as He. split.
  - intros Hnone. rewrite Hnone in He. split.
    + intros Hne. rewrite onError_built by reflexivity. unfold built_error.
      rewrite (nonempty_string_truthy detail Hne), He. reflexivity.
    + rewrite onError_built by reflexivity. unfold built_error.
      cbn [truthy]. cbv iota. rewrite He. reflexivity.
  - intros Hsome. rewrite Hsome in He.
    rewrite onError_built by reflexivity. unfold built_error.
    cbn [truthy]. cbv iota. rewrite He. reflexivity.
Qed.

(** X16.  [getStoredCardDetails] (lines 228-238): a token that is falsy or
    not a string gives the [ip] error with the token text and nothing is
    sent; a non-empty string [s] gives, when the gate is open, exactly one
    request, a GET to [tokens/s] under the endpoint, with [json: true]. *)
Theorem getStoredCardDetails_validates_then_sends {R} (self : client)
        (token : value) (cb : node_cb R) (log : list request_options) :
  ((truthy token = false \/ typeof token <> "string") ->
   getStoredCardDetails rt cat net self token cb log
   = cb (built_error rt cat "ip" (VStr (t_token cat)) U U U U) U log)
  /\ (forall s, token = VStr s -> s <> "" -> ssl_gate self = Normal false ->
      snd (run (getStoredCardDetails rt cat net self token observe))
      = [sent_request self ("tokens/" ++ s) "GET" (VBool true)]).
Proof.
  split.
  - apply getStoredCardDetails_bad_token.
  - intros s -> Hne Hgate.
    destruct (getStoredCardDetails_log rt cat net self (VStr s))
      as [Hl | [s' [[= <-] [_ [_ Hl]]]]]; [|exact Hl].
    exfalso. revert Hl. unfold run.
    rewrite (getStoredCardDetails_outcomes rt cat net self s observe [] Hne).
    unfold outcome_not_expecting. rewrite Hgate.
    destruct (truthy (r_err _)); [discriminate|].
    destruct (get_prop _ "statusCode") as [sc|t]; [|discriminate].
    destruct (strict_eq sc _); [discriminate|].
    destruct (convertible _); discriminate.
Qed.

(** X17.  The handler of [processWebhook] sends no request, whatever it is
    given: the log after it is the log before it. *)
Theorem processWebhook_sends_nothing {R} (token cb : argument R) (req : value)
        (log : list request_options) :
  (forall f, cb = IsFunction f -> keeps_log f) ->
  snd (processWebhook rt cat token cb req log) = log.
Proof.
  intros Hk. unfold processWebhook, bind, lift.
  destruct (get_prop req "method") as [m|t]; [|reflexivity].
  assert (Hcall : forall e d, snd (call cb e d log) = log).
  { intros e d. destruct cb as [f|v]; [apply (Hk f eq_refl) | reflexivity]. }
  destruct (negb (strict_eq m (VStr "POST"))); [apply Hcall|].
  destruct (get_prop req "body") as [b|t]; [|reflexivity].
  destruct (negb (truthy b)); apply Hcall.
Qed.

(** X18.  The handler of [processWebhook] throws a TypeError on every
    request when the second argument was not a function, and, whatever the
    callback, when the request itself is [null] or [undefined]. *)
Theorem processWebhook_throws {R} (token cb : argument R) (v req : value)
        (log : list request_options) :
  processWebhook rt cat token (NotFunction v) req log = (Throw TypeError, log)
  /\ processWebhook rt cat token cb VNull log = (Throw TypeError, log)
  /\ processWebhook rt cat token cb U log = (Throw TypeError, log).
Proof.
  split; [|split; reflexivity].
  unfold processWebhook, bind, lift.
  destruct req; try reflexivity;
    cbn [get_prop];
    destruct (negb (strict_eq _ (VStr "POST"))); try reflexivity;
    destruct (negb (truthy _)); reflexivity.
Qed.

End Edges.

(** ** The payload of createOrder *)

Section Payload.

Lemma merge_nil (obj : list (string * value)) : merge obj (VObj []) = obj.
Proof. reflexivity. Qed.

Lemma merge_cons (obj : list (string * value)) (k : string) (v : value)
      (ps : list (string * value)) :
  merge obj (VObj ((k, v) :: ps)) = merge (merge_step obj k v) (VObj ps).
Proof. destruct v; reflexivity. Qed.

Lemma lookup_set_same (k : string) (v : value) (obj : list (string * value)) :
  lookup (set k v obj) k = Some v.
Proof.
  induction obj as [|[k' v'] obj IH]; simpl.
  - rewrite String.eqb_refl. reflexivity.
  - destruct (String.eqb k' k) eqn:E; simpl.
    + rewrite String.eqb_refl. reflexivity.
    + rewrite E. exact IH.
Qed.

Lemma lookup_set_other (k k' : string) (v : value) (obj : list (string * value)) :
  k' <> k -> lookup (set k v obj) k' = lookup obj k'.
Proof.
  intros Hne. induction obj as [|[k0 v0] obj IH]; simpl.
  - apply String.eqb_neq in Hne. rewrite String.eqb_sym, Hne. reflexivity.
  - destruct (String.eqb k0 k) eqn:E; simpl.
    + apply String.eqb_eq in E. subst k0.
      assert (E' : String.eqb k k' = false)
        by (apply String.eqb_neq; congruence).
      rewrite E'. reflexivity.
    + destruct (String.eqb k0 k'); [reflexivity | exact IH].
Qed.

Lemma lookup_merge_step_other (obj : list (string * value)) (k k' : string)
      (v : value) :
  k' <> k -> lookup (merge_step obj k v) k' = lookup obj k'.
Proof.
  intros Hne. destruct v; simpl; try (apply lookup_set_other; exact Hne).
  destruct (lookup obj k); [reflexivity | apply lookup_set_other; exact Hne].
Qed.

(** A key the source does not have keeps the value of the destination. *)
Lemma merge_lookup_absent (sprops obj : list (string * value)) (k : string) :
  lookup sprops k = None -> lookup (merge obj (VObj sprops)) k = lookup obj k.
Proof.
  revert obj. induction sprops as [|[k0 v0] ps IH]; intros obj Hk.
  - reflexivity.
  - simpl in Hk. destruct (String.eqb k0 k) eqn:E; [discriminate|].
    rewrite merge_cons, (IH _ Hk).
    apply lookup_merge_step_other. apply String.eqb_neq.
    rewrite String.eqb_sym. exact E.
Qed.

Lemma lookup_none_not_in (ps : list (string * value)) (k : string) :
  ~ In k (map fst ps) -> lookup ps k = None.
Proof.
  induction ps as [|[k0 v0] ps IH]; intros Hn; simpl; [reflexivity|].
  destruct (String.eqb k0 k) eqn:E.
  - apply String.eqb_eq in E. subst. exfalso. apply Hn. left. reflexivity.
  - apply IH. intros Hin. apply Hn. right. exact Hin.
Qed.

(** A scalar of the source replaces the value of the destination. *)
Lemma merge_lookup_scalar (sprops obj : list (string * value)) (k : string)
      (v : value) :
  NoDup (map fst sprops) -> lookup sprops k = Some v -> is_scalar v = true ->
  lookup (merge obj (VObj sprops)) k = Some v.
Proof.
  revert obj. induction sprops as [|[k0 v0] ps IH]; intros obj Hnd Hk Hs.
  - discriminate.
  - simpl in Hk. inversion Hnd as [|? ? Hnotin Hnd']; subst.
    rewrite merge_cons. destruct (String.eqb k0 k) eqn:E.
    + apply String.eqb_eq in E. subst k0. injection Hk as ->.
      rewrite (merge_lookup_absent ps _ k (lookup_none_not_in ps k Hnotin)).
      destruct v; try discriminate; apply lookup_set_same.
    + apply (IH _ Hnd' Hk Hs).
Qed.

(** An [undefined] of the source leaves a value of the destination alone. *)
Lemma merge_lookup_undefined (sprops obj : list (string * value)) (k : string)
      (d : value) :
  NoDup (map fst sprops) -> lookup sprops k = Some VUndefined ->
  lookup obj k = Some d ->
  lookup (merge obj (VObj sprops)) k = Some d.
Proof.
  revert obj. induction sprops as [|[k0 v0] ps IH]; intros obj Hnd Hk Hd.
  - discriminate.
  - simpl in Hk. inversion Hnd as [|? ? Hnotin Hnd']; subst.
    rewrite merge_cons. destruct (String.eqb k0 k) eqn:E.
    + apply String.eqb_eq in E. subst k0. injection Hk as ->.
      rewrite (merge_lookup_absent ps _ k (lookup_none_not_in ps k Hnotin)).
      simpl. rewrite Hd. exact Hd.
    + apply (IH _ Hnd' Hk).
      rewrite lookup_merge_step_other; [exact Hd|].
      apply String.eqb_neq. rewrite String.eqb_sym. exact E.
Qed.

(** Reading a payload key off the payload is reading it off the merged
    order; any other key is absent from the payload. *)
Lemma order_json_get (order : value) (k : string) :
  get_own (order_json order) k
  = if existsb (String.eqb k) payload_keys then get_own order k else VUndefined.
Proof.
  unfold order_json, get_own at 1. cbn [lookup].
  repeat match goal with
         | |- context [String.eqb ?a k] =>
             rewrite (String.eqb_sym a k);
             let E := fresh "E" in
             destruct (String.eqb k a) eqn:E;
             [ apply String.eqb_eq in E; subst k; reflexivity | ]
         end.
  cbn [existsb payload_keys orb].
  repeat match goal with H : String.eqb k _ = false |- _ => rewrite H; clear H end.
  reflexivity.
Qed.

End Payload.

Section PayloadSent.
Variable rt : Runtime.
Variable cat : catalog.
Variable net : request_options -> reply.

Lemma payload_key_test (k : string) :
  existsb (String.eqb k) payload_keys = true <-> In k payload_keys.
Proof.
  rewrite existsb_exists. split.
  - intros [x [Hin Hx]]. apply String.eqb_eq in Hx. subst. exact Hin.
  - intros Hin. exists k. split; [exact Hin | apply String.eqb_refl].
Qed.

(** X19.  The payload [createOrder] posts to [orders] for an order object
    (lines 174-193), the request being sent when the gate is open and the
    amount gets past line 70 (it is not an object that fails to convert): a
    scalar the caller gave under one of the nine payload keys is sent as it
    is; any other key of the order is left out;
    [orderType] is ["ECOM"] and [customerIdentifiers] is [null] when the
    order has none (or has [undefined] there), and [customerOrderCode] is
    [undefined] when the order has none. *)
Theorem createOrder_payload (self : client) (props : list (string * value)) :
  NoDup (map fst props) ->
  (ssl_gate self = Normal false ->
   convertible (get_own (VObj props) "amount") = true ->
   snd (run (createOrder rt cat net self (VObj props) observe))
   = [createOrder_request self (VObj props)])
  /\ url (createOrder_request self (VObj props)) = VStr (endpoint self ++ "orders")
  /\ method (createOrder_request self (VObj props)) = VStr "POST"
  /\ (forall k v, In k payload_keys -> lookup props k = Some v ->
                  is_scalar v = true ->
                  get_own (json (createOrder_request self (VObj props))) k = v)
  /\ (forall k, ~ In k payload_keys ->
                get_own (json (createOrder_request self (VObj props))) k
                = VUndefined)
  /\ (lookup props "orderType" = None \/ lookup props "orderType" = Some VUndefined ->
      get_own (json (createOrder_request self (VObj props))) "orderType"
      = VStr "ECOM")
  /\ (lookup props "customerIdentifiers" = None
      \/ lookup props "customerIdentifiers" = Some VUndefined ->
      get_own (json (createOrder_request self (VObj props))) "customerIdentifiers"
      = VNull)
  /\ (lookup props "customerOrderCode" = None ->
      get_own (json (createOrder_request self (VObj props))) "customerOrderCode"
      = VUndefined).
Proof.
  intros Hnd.
  assert (Hjson : forall k,
    get_own (json (createOrder_request self (VObj props))) k
    = if existsb (String.eqb k) payload_keys
      then match lookup (merge defaults (VObj props)) k with
           | Some x => x
           | None => VUndefined
           end
      else VUndefined).
  { intros k. apply (order_json_get (VObj (merge defaults (VObj props))) k). }
  split; [|split; [reflexivity | split; [reflexivity|]]].
  { intros Hgate Hamount. rewrite createOrder_log, Hgate.
    change (js_or (VObj props) (VObj [])) with (VObj props).
    rewrite Hamount. reflexivity. }
  split; [|split; [|split; [|split]]].
  - intros k v Hin Hk Hs. rewrite Hjson.
    rewrite (proj2 (payload_key_test k) Hin).
    rewrite (merge_lookup_scalar props defaults k v Hnd Hk Hs). reflexivity.
  - intros k Hnot. rewrite Hjson.
    destruct (existsb (String.eqb k) payload_keys) eqn:E; [|reflexivity].
    exfalso. apply Hnot. apply payload_key_test. exact E.
  - intros [Hk | Hk]; rewrite Hjson; cbn [existsb payload_keys String.eqb orb].
    + rewrite (merge_lookup_absent props defaults _ Hk). reflexivity.
    + rewrite (merge_lookup_undefined props defaults _ (VStr "ECOM") Hnd Hk eq_refl).
      reflexivity.
  - intros [Hk | Hk]; rewrite Hjson; cbn [existsb payload_keys String.eqb orb].
    + rewrite (merge_lookup_absent props defaults _ Hk). reflexivity.
    + rewrite (merge_lookup_undefined props defaults _ VNull Hnd Hk eq_refl).
      reflexivity.
  - intros Hk. rewrite Hjson. cbn [existsb payload_keys String.eqb orb].
    rewrite (merge_lookup_absent props defaults _ Hk). reflexivity.
Qed.

End PayloadSent.

Section Refund.
Variable rt : Runtime.
Variable cat : catalog.
Variable net : request_options -> reply.

Local Abbreviation U := VUndefined.

(** The [apierror] error of line 137, spelt out. *)
Lemma apierror_of_response (response sc : value) :
  built_error rt cat "apierror" response sc U U U
  = WorldpayException
      (VStr (t_apierror cat ++ (if truthy response then " - " else "")
             ++ string_of rt response))
      sc U U U.
Proof.
  unfold built_error. destruct (truthy response) eqn:Ht.
  - destruct response; reflexivity.
  - destruct response; try discriminate Ht; reflexivity.
Qed.

(** X20.  [refundOrder] for a non-empty order code, once the gate is open:
    a transport error is handed to the caller as it is; otherwise a response
    whose status is not 200 and that converts to a string gives the
    [apierror] error, with the status as its code and, as its message, the
    catalog text followed by the response converted to a string.  In both
    cases the one request has been sent. *)
Theorem refundOrder_failures {R} (self : client) (orderCode : string)
        (cb : node_cb R) (log : list request_options) :
  orderCode <> "" ->
  ssl_gate self = Normal false ->
  (truthy (r_err (net (refundOrder_request self orderCode))) = true ->
   refundOrder rt cat net self (VStr orderCode) cb log
   = cb (r_err (net (refundOrder_request self orderCode))) U
        (log ++ [refundOrder_request self orderCode]))
  /\ (truthy (r_err (net (refundOrder_request self orderCode))) = false ->
      forall response sc,
        r_response (net (refundOrder_request self orderCode)) = response ->
        get_prop response "statusCode" = Normal sc ->
        strict_eq sc (VNum 200%float) = false ->
        convertible response = true ->
        refundOrder rt cat net self (VStr orderCode) cb log
        = cb (WorldpayException
                (VStr (t_apierror cat ++ (if truthy response then " - " else "")
                       ++ string_of rt response))
                sc U U U) U
             (log ++ [refundOrder_request self orderCode])).
Proof.
  intros Hne Hgate.
  rewrite (refundOrder_outcomes rt cat net self orderCode cb log Hne).
  unfold outcome_not_expecting. rewrite Hgate. split.
  - intros He. rewrite He. reflexivity.
  - intros He response sc Hresp Hsc H200 Hconv.
    rewrite He, Hresp, Hsc, H200, Hconv. rewrite apierror_of_response.
    reflexivity.
Qed.

End Refund.

(** ** The further properties at concrete inputs *)

(** X2 on a reply with status 500 for a caller that expects a response. *)
Lemma callback_calls_back_witness :
  exists e d,
    callback inert_runtime sample_catalog
             (VObj [ ("expectResponse", VBool true) ]) observe
             VNull (VObj [ ("statusCode", VNum 500%float) ]) VUndefined []
    = observe e d [].
Proof.
  apply (callback_calls_back inert_runtime sample_catalog
           (VObj [ ("expectResponse", VBool true) ]) observe
           VNull (VObj [ ("statusCode", VNum 500%float) ]) VUndefined []).
  right. split; [discriminate | split; [discriminate | reflexivity]].
Defined.

(** X3 on an [undefined] response, no error, for a caller that expects a
    response. *)
Lemma callback_missing_response_throws_witness :
  callback inert_runtime sample_catalog
           (VObj [ ("expectResponse", VBool true) ]) observe
           VNull VUndefined VUndefined []
  = (Throw TypeError, []).
Proof.
  apply (callback_missing_response_throws inert_runtime sample_catalog
           (VObj [ ("expectResponse", VBool true) ]) observe
           VNull VUndefined VUndefined []).
  - reflexivity.
  - left. reflexivity.
Defined.

(** X4 on status 200 for a caller that does not expect a response. *)
Lemma callback_error_first_witness :
  @nil request_options = []
  /\ ((truthy VNull = true /\ VBool true = VUndefined)
      \/ (VNull = VNull
          /\ (VBool true = VBool true \/ VBool true = VStr "the body"))).
Proof.
  apply (callback_error_first inert_runtime sample_catalog
           (VObj []) VNull (VObj [ ("statusCode", VNum 200%float) ])
           (VStr "the body") VNull (VBool true) [] []).
  reflexivity.
Defined.

(** X6 on the refund of a live key with the flag off. *)
Lemma non_test_key_requests_are_verified_witness :
  strictSSL (refundOrder_request live_client "ORD1") = true.
Proof.
  apply (non_test_key_requests_are_verified inert_runtime sample_catalog
           (answers_200 VUndefined) live_client
           VUndefined VUndefined (VStr "ORD1") VUndefined
           (refundOrder_request live_client "ORD1")).
  - reflexivity.
  - right; right; left. simpl. left. reflexivity.
Defined.

(** X7 on a live key with the flag on. *)
Lemma flag_on_blocks_every_operation_witness :
  refundOrder inert_runtime sample_catalog (answers_200 VUndefined)
              flagged_live_client (VStr "ORD1") observe []
  = observe (built_error inert_runtime sample_catalog "ssl"
                     VUndefined VUndefined VUndefined VUndefined VUndefined)
            VUndefined [].
Proof.
  apply (flag_on_blocks_every_operation inert_runtime sample_catalog
           (answers_200 VUndefined) flagged_live_client
           VUndefined VUndefined "ORD1" "tok_1" observe []);
    try reflexivity; discriminate.
Defined.

(** X8 on a test key with the flag on. *)
Lemma flag_on_test_key_sends_unverified_witness :
  snd (run (sendRequest inert_runtime sample_catalog (answers_200 VUndefined)
              flagged_test_client (VObj [ ("action", VStr "orders") ]) observe))
  = [sendRequest_request inert_runtime flagged_test_client
                         (VObj [ ("action", VStr "orders") ])]
  /\ strictSSL (sendRequest_request inert_runtime flagged_test_client
                                    (VObj [ ("action", VStr "orders") ])) = false.
Proof.
  apply (flag_on_test_key_sends_unverified inert_runtime sample_catalog
           (answers_200 VUndefined) flagged_test_client
           (VObj [ ("action", VStr "orders") ])); reflexivity.
Defined.

(** X9 on the card lookup of a test key. *)
Lemma requests_carry_key_and_timeout_witness :
  authorization (getStoredCardDetails_request test_client "tok_1")
  = VStr "T_test_key"
  /\ timeout_opt (getStoredCardDetails_request test_client "tok_1")
     = VNum 10%float.
Proof.
  apply (requests_carry_key_and_timeout inert_runtime sample_catalog
           (answers_200 VUndefined) test_client
           VUndefined VUndefined VUndefined (VStr "tok_1")
           (getStoredCardDetails_request test_client "tok_1")).
  do 3 right. simpl. left. reflexivity.
Defined.

(** X10 on [setTimeout()] without a value, then a request. *)
Lemma setTimeout_reaches_request_witness :
  timeout_opt (sendRequest_request inert_runtime
                 (setTimeout live_client VUndefined)
                 (VObj [ ("action", VStr "orders") ]))
  = VNum 3%float
  /\ authorization (sendRequest_request inert_runtime
                      (setTimeout live_client VUndefined)
                      (VObj [ ("action", VStr "orders") ]))
     = VStr "L_live_key".
Proof.
  apply (setTimeout_reaches_request inert_runtime sample_catalog
           (answers_200 VUndefined) live_client VUndefined
           (VObj [ ("action", VStr "orders") ])
           (sendRequest_request inert_runtime (setTimeout live_client VUndefined)
                                (VObj [ ("action", VStr "orders") ]))).
  simpl. left. reflexivity.
Defined.

(** X11 on [new Worldpay('L_live_key', 30)]. *)
Lemma fresh_client_sends_verified_witness :
  strictSSL (sendRequest_request inert_runtime
               {| serviceKey := VStr "L_live_key";
                  timeout := VNum 30%float;
                  disableSsl := false;
                  endpoint := "https://api.worldpay.com/v1/" |}
               (VObj [ ("action", VStr "orders") ])) = true.
Proof.
  apply (fresh_client_sends_verified inert_runtime sample_catalog
           (answers_200 VUndefined) (VStr "L_live_key") (VNum 30%float)
           (VObj [ ("action", VStr "orders") ])); reflexivity.
Defined.

(** X12 on [sendRequest(undefined, cb)]. *)
Lemma sendRequest_without_options_witness :
  sendRequest_request inert_runtime live_client VUndefined
  = sent_request live_client "undefined" "POST" (VBool true).
Proof.
  apply (sendRequest_without_options inert_runtime sample_catalog
           (answers_200 VUndefined) live_client VUndefined observe []).
  reflexivity.
Defined.

(** X13 on a request for a card with [expectResponse] spelt as [sendRequest]
    reads it. *)
Lemma sendRequest_expecting_200_gives_body_witness :
  sendRequest inert_runtime sample_catalog
              (answers_200 (VObj [ ("paymentMethod", VStr "card") ]))
              live_client
              (VObj [ ("action", VStr "tokens/tok_1");
                      ("expectResponse", VBool true) ]) observe []
  = observe VNull (VObj [ ("paymentMethod", VStr "card") ])
            ([] ++ [sent_request live_client "tokens/tok_1" "POST" (VBool true)]).
Proof.
  apply (sendRequest_expecting_200_gives_body inert_runtime sample_catalog
           (answers_200 (VObj [ ("paymentMethod", VStr "card") ])) live_client
           (VObj [ ("action", VStr "tokens/tok_1");
                   ("expectResponse", VBool true) ]) observe []
           [ ("statusCode", VNum 200%float) ]); reflexivity.
Defined.

(** X14 on the [ip] error with the refund text, and on a message object
    with an own [toString]. *)
Lemma onError_with_detail_witness :
  onError inert_runtime sample_catalog "ip" (VStr "No order code entered")
          VUndefined VUndefined VUndefined VUndefined
  = Normal (WorldpayException
              (VStr "Invalid parameters - No order code entered")
              VUndefined VUndefined VUndefined VUndefined)
  /\ onError inert_runtime sample_catalog "ip"
             (VObj [ ("toString", VNum 1%float) ])
             VUndefined VUndefined VUndefined VUndefined
     = Throw TypeError.
Proof.
  destruct (onError_with_detail inert_runtime sample_catalog
              "ip" "Invalid parameters" "No order code entered"
              (VObj [ ("toString", VNum 1%float) ])
              VUndefined VUndefined VUndefined VUndefined eq_refl)
    as [Hdetail [_ Hthrow]].
  split; [apply Hdetail; discriminate | apply Hthrow; reflexivity].
Defined.

(** X15 on a key the sample catalog does not have, and on the key
    ["constructor"], which it inherits. *)
Lemma onError_unknown_key_witness :
  onError inert_runtime sample_catalog "sslerror"
          VUndefined VUndefined VUndefined VUndefined VUndefined
  = Normal (WorldpayException (VNum nan)
                              VUndefined VUndefined VUndefined VUndefined)
  /\ onError inert_runtime sample_catalog "constructor"
             VUndefined VUndefined VUndefined VUndefined VUndefined
     = Normal (WorldpayException
                 (VStr "function Object() { [native code] }undefined")
                 VUndefined VUndefined VUndefined VUndefined).
Proof.
  split.
  - destruct (onError_unknown_key inert_runtime sample_catalog
                "sslerror" "x" VUndefined VUndefined VUndefined VUndefined
                eq_refl) as [Hnone _].
    apply (Hnone eq_refl).
  - destruct (onError_unknown_key inert_runtime sample_catalog
                "constructor" "x" VUndefined VUndefined VUndefined VUndefined
                eq_refl) as [_ Hsome].
    apply (Hsome eq_refl).
Defined.

(** X16 on a number as token and on the token ["tok_1"]. *)
Lemma getStoredCardDetails_validates_then_sends_witness :
  getStoredCardDetails inert_runtime sample_catalog (answers_200 VUndefined)
                       live_client (VNum 7%float) observe []
  = observe (built_error inert_runtime sample_catalog "ip" (VStr "No token found")
                     VUndefined VUndefined VUndefined VUndefined) VUndefined []
  /\ snd (run (getStoredCardDetails inert_runtime sample_catalog
                 (answers_200 VUndefined) live_client (VStr "tok_1") observe))
     = [sent_request live_client "tokens/tok_1" "GET" (VBool true)].
Proof.
  split.
  - apply (getStoredCardDetails_validates_then_sends inert_runtime
             sample_catalog (answers_200 VUndefined) live_client
             (VNum 7%float) observe []).
    right. discriminate.
  - destruct (getStoredCardDetails_validates_then_sends inert_runtime
                sample_catalog (answers_200 VUndefined) live_client
                (VStr "tok_1") observe []) as [_ Hsend].
    apply (Hsend "tok_1" eq_refl); [discriminate | reflexivity].
Defined.

(** X17 on a POST with a body. *)
Lemma processWebhook_sends_nothing_witness :
  snd (processWebhook inert_runtime sample_catalog (NotFunction VUndefined)
         (IsFunction observe)
         (VObj [ ("method", VStr "POST"); ("body", VStr "event") ]) [])
  = [].
Proof.
  apply (processWebhook_sends_nothing inert_runtime sample_catalog
           (NotFunction VUndefined) (IsFunction observe)
           (VObj [ ("method", VStr "POST"); ("body", VStr "event") ]) []).
  intros f [= <-] err data log. reflexivity.
Defined.

(** X19 on an order without [orderType] and with a key that is not part of
    the payload. *)
Lemma createOrder_payload_witness :
  get_own (json (createOrder_request live_client (VObj sample_order_props)))
          "amount" = VNum 100%float
  /\ get_own (json (createOrder_request live_client (VObj sample_order_props)))
             "comment" = VUndefined
  /\ get_own (json (createOrder_request live_client (VObj sample_order_props)))
             "orderType" = VStr "ECOM".
Proof.
  assert (Hnd : NoDup (map fst sample_order_props)).
  { repeat (constructor; [simpl; intuition discriminate|]). constructor. }
  destruct (createOrder_payload inert_runtime sample_catalog
              (answers_200 VUndefined) live_client sample_order_props Hnd)
    as [_ [_ [_ [Hgiven [Hother [Htype _]]]]]].
  split; [|split].
  - apply Hgiven; [simpl; tauto | reflexivity | reflexivity].
  - apply Hother. simpl. intuition discriminate.
  - apply Htype. left. reflexivity.
Defined.

(** X20 on a refund answered with status 404. *)
Lemma refundOrder_failures_witness :
  refundOrder inert_runtime sample_catalog
              (answers {| r_err := VNull;
                          r_response := VObj [ ("statusCode", VNum 404%float) ];
                          r_body := VUndefined |})
              live_client (VStr "ORD1") observe []
  = observe (WorldpayException (VStr "API Error - [object Object]")
                               (VNum 404%float)
                               VUndefined VUndefined VUndefined) VUndefined
            ([] ++ [refundOrder_request live_client "ORD1"]).
Proof.
  destruct (refundOrder_failures inert_runtime sample_catalog
              (answers {| r_err := VNull;
                          r_response := VObj [ ("statusCode", VNum 404%float) ];
                          r_body := VUndefined |})
              live_client "ORD1" observe [] ltac:(discriminate) eq_refl)
    as [_ H].
  apply (H eq_refl (VObj [ ("statusCode", VNum 404%float) ]) (VNum 404%float)
           eq_refl eq_refl eq_refl eq_refl).
Defined.
